(** * Chunked speech enhancement: a shallow embedding of [main_denoising.py]

    The development follows the source file top to bottom: the constants,
    the [processify] decorator, [denoise_wav] and [main_denoising].  Python
    code that has effects (files in the temporary directories, the standard
    output, the worker process) is written in a state-and-exception monad over
    an explicit [world]; every collaborator that lives outside the source file
    (NumPy's floating point kernels, [utils], [librosa], [ffmpeg], the CNTK
    decoder) is a field of the [Externals] interface.

    Idealisations: the samples and spectra that NumPy computes on are an
    abstract carrier [F] with the operations the source applies to them;
    [truncate_minutes] is a binary64 float, and the chunk length is computed
    as in the source, by two rounded multiplications and [int]; the quotient
    under [math.ceil] is exact (on binary64 this holds for sample counts below
    2^53); the worker process is observed through its start, its single queue
    message and its join. *)

From Stdlib Require Import ZArith QArith Qround Lia SpecFloat.
From stdpp Require Import gmap strings list pretty.

Open Scope Z_scope.

(** ** Python values shared by the whole file *)

(** An exception instance: its class name, [str(value)], and [__context__],
    the exception that was being handled when this one was raised. *)
#[warnings="-register-all"]
Inductive exn :=
  ExnC { ex_type : string; ex_value : string; ex_context : option exn }.

(** An exception raised outside any handler. *)
Abbreviation Exn ty v := (ExnC ty v None).

(** The result of evaluating a Python expression or statement. *)
Inductive result (A : Type) : Type :=
| Ok (a : A)
| Raise (e : exn).
Arguments Ok {A} a.
Arguments Raise {A} e.

#[export] Instance result_ret : MRet result := λ A a, Ok a.

#[export] Instance result_bind : MBind result := λ A B f r,
  match r with
  | Ok a => f a
  | Raise e => Raise e
  end.

(** What [sys.exc_info()] sees at the end of a function run under
    [try ... except Exception]: a return value, or the exception together with
    the entries of [traceback.format_tb(tb)].  A function that ends in neither
    way (it raises outside [Exception], or its process dies), or whose message
    cannot be pickled, puts nothing on the queue and leaves the parent in
    [q.get()] for ever, as there is no timeout; such runs have no result and
    are not part of the model. *)
Inductive outcome (A : Type) : Type :=
| Returned (ret : A)
| Raised (e : exn) (tb : list string).
Arguments Returned {A} ret.
Arguments Raised {A} e tb.

(** ** Python floats

    A [float] is an IEEE 754 binary64 value; the arithmetic is the one of the
    standard library's specification of floating point numbers, rounding to
    nearest, ties to even. *)
Definition prec : Z := 53.
Definition emax : Z := 1024.

Definition py_float : Type := spec_float.

(** The number a float stands for; [inf] and [nan] stand for none. *)
Definition float_value (x : py_float) : option Q :=
  match x with
  | S754_zero _ => Some 0%Q
  | S754_finite s m e =>
      Some (match e with
            | Zneg d => cond_Zopp s (Z.pos m) # 2 ^ d
            | _ => inject_Z (cond_Zopp s (Z.pos m) * 2 ^ e)
            end)
  | S754_infinity _ | S754_nan => None
  end.

(** [float(z)] for an int, as in [x * z]: the nearest float. *)
Definition float_of_int (z : Z) : result py_float :=
  match binary_normalize prec emax z 0 false with
  | S754_infinity _ => Raise (Exn "OverflowError" "int too large to convert to float")
  | x => Ok x
  end.

(** [x * z] for a float [x] and an int [z]. *)
Definition float_mul_int (x : py_float) (z : Z) : result py_float :=
  y ← float_of_int z; Ok (SFmul prec emax x y).

(** Truncation toward zero. *)
Definition truncate (x : Q) : Z := Z.quot (Qnum x) (Z.pos (Qden x)).

(** [int(x)] on a float. *)
Definition py_int (x : py_float) : result Z :=
  match x with
  | S754_nan => Raise (Exn "ValueError" "cannot convert float NaN to integer")
  | S754_infinity _ =>
      Raise (Exn "OverflowError" "cannot convert float infinity to integer")
  | _ => Ok (truncate (default 0%Q (float_value x)))
  end.

(** The float a decimal literal [n/d] is read as: the float nearest to the
    quotient of the two naturals. *)
Definition float_of_ratio (n d : positive) : py_float :=
  SFdiv prec emax (S754_finite false n 0) (S754_finite false d 0).

(** [x > 0] *)
Definition float_positive (x : py_float) : Prop := SFltb (S754_zero false) x = true.

(** A float without a minus sign: plus zero, a positive number, plus
    infinity, or nan. *)
Definition sign_plus (x : py_float) : Prop :=
  match x with
  | S754_zero s | S754_infinity s | S754_finite s _ _ => s = false
  | S754_nan => True
  end.

(** [range(a, b)]. *)
Definition py_range (a b : Z) : list Z :=
  map (λ k, a + Z.of_nat k) (seq 0 (Z.to_nat (b - a))).

(** Normalisation of one bound of a slice [l[b:e]] with step 1: a negative
    index counts from the end, and both bounds are clamped to the sequence. *)
Definition slice_index (len i : Z) : Z :=
  if i <? 0 then Z.max 0 (i + len) else Z.min i len.

Definition py_slice {A} (l : list A) (b e : Z) : list A :=
  let len := Z.of_nat (length l) in
  let b' := slice_index len b in
  let e' := slice_index len e in
  take (Z.to_nat (e' - b')) (drop (Z.to_nat b') l).

(** [str.split()] without arguments: fields separated by runs of white space. *)
Definition py_split (s : string) : list string := String.words s.

(** [''.join(parts)] *)
Definition str_join (parts : list string) : string := foldr String.app "" parts.

(** [os.path.join(a, b)] on POSIX paths. *)
Definition ends_with_slash (a : string) : bool :=
  String.prefix "/" (String.rev a).

Definition os_path_join (a b : string) : string :=
  if String.prefix "/" b then b
  else if decide (a = "") then b
  else if ends_with_slash a then a +:+ b
  else a +:+ "/" +:+ b.

(** ** Module constants *)

Definition SR : Z := 16000.       (* Expected sample rate (Hz) of input WAV. *)
Definition BITDEPTH : Z := 16.    (* Expected bitdepth of input WAV. *)
Definition WL : Z := 512.         (* Analysis window length in samples. *)
Definition WL2 : Z := WL `div` 2.
Definition NFREQS : Z := 257.     (* Number of positive frequencies in FFT output. *)

Definition nl : string := String (Ascii.ascii_of_nat 10) "".   (* newline *)
Definition dq : string := String (Ascii.ascii_of_nat 34) "".   (* double quote *)

(** ** NumPy's floating point kernels

    The operations the source applies to array elements.  Division by zero and
    the logarithm of zero are values (inf, nan) on floats, so all of them are
    total. *)
Class FloatOps (F : Type) := {
  fadd : F → F → F;
  fsub : F → F → F;
  fmul : F → F → F;
  fdiv : F → F → F;
  flog : F → F;
  f_of_Z : Z → F;
}.

Section Model.
Context {F : Type} {ops : FloatOps F}.

(** ** Two-dimensional arrays with broadcasting *)

(** A 2-D [ndarray] of shape [(length rows, ncols)]; every row of a
    well-formed array has [ncols] entries.  The column count is kept apart so
    that an array without rows still has a shape. *)
Record ndarray := NdArray { ncols : nat; rows : list (list F) }.

Definition nrows (a : ndarray) : nat := length (rows a).

Definition shape (a : ndarray) : nat * nat := (nrows a, ncols a).

Definition well_formed (a : ndarray) : Prop :=
  Forall (λ r, length r = ncols a) (rows a).

(** [a[i][j]] *)
Definition entry (a : ndarray) (i j : nat) : option F :=
  rows a !! i ≫= (.!! j).

(** One axis of NumPy's broadcasting rule: equal extents, or one of them 1. *)
Definition broadcast_dim (m n : nat) : option nat :=
  if decide (m = n) then Some m
  else if decide (m = 1%nat) then Some n
  else if decide (n = 1%nat) then Some m
  else None.

(** An axis of extent 1 is repeated to the broadcast extent. *)
Definition stretch {A} (n : nat) (l : list A) : list A :=
  match l with
  | [x] => replicate n x
  | _ => l
  end.

Definition pretty_shape (a : ndarray) : string :=
  "(" +:+ pretty (nrows a) +:+ "," +:+ pretty (ncols a) +:+ ")".

(** [a op b] for an elementwise binary operator. *)
Definition np_binop (f : F → F → F) (a b : ndarray) : result ndarray :=
  match broadcast_dim (nrows a) (nrows b), broadcast_dim (ncols a) (ncols b) with
  | Some r, Some c =>
      Ok (NdArray c
            (zip_with (λ ra rb, zip_with f (stretch c ra) (stretch c rb))
                      (stretch r (rows a)) (stretch r (rows b))))
  | _, _ =>
      Raise (Exn "ValueError"
               ("operands could not be broadcast together with shapes "
                  +:+ pretty_shape a +:+ " " +:+ pretty_shape b +:+ " "))
  end.

Definition np_add := np_binop fadd.
Definition np_sub := np_binop fsub.
Definition np_div := np_binop fdiv.

(** [np.log(a)] *)
Definition np_log (a : ndarray) : ndarray :=
  NdArray (ncols a) (map (map flog) (rows a)).

(** [np.concatenate(arrays)] on 1-D arrays. *)
Definition np_concatenate {A} (arrays : list (list A)) : result (list A) :=
  match arrays with
  | [] => Raise (Exn "ValueError" "need at least one array to concatenate")
  | _ => Ok (concat arrays)
  end.

(** ** The world: files, temporary names, and what the run prints *)

Inductive file :=
| FHtk (data : ndarray) (samp_period parm_kind : Z)   (* HTK feature file *)
| FScp (label feature_fn : string) (first last : Z)   (* label=feature_fn[first,last] *)
| FMat (vars : gmap string ndarray)                   (* MATLAB file of named arrays *)
| FWav (rate : Z) (channels : list (list Z))          (* PCM audio, one list per channel *)
| FOther (kind : string).                             (* anything else *)

Inductive event :=
| EvPrint (line : string)     (* print(...) *)
| EvWarn (msg : string)       (* utils.warn(msg) *)
| EvError (msg : string)      (* utils.error(msg) *)
| EvStart (name : string)     (* Process.start() *)
| EvJoin (name : string).     (* Process.join() *)

Record world := World {
  files : gmap string file;
  tmp_names : nat → string;   (* the names the OS will hand out, in order *)
  tmp_count : nat;            (* how many have been handed out *)
  log : list event;
}.

Definition set_files (f : gmap string file → gmap string file) (w : world) : world :=
  World (f (files w)) (tmp_names w) (tmp_count w) (log w).

Definition add_event (e : event) (w : world) : world :=
  World (files w) (tmp_names w) (tmp_count w) (log w ++ [e]).

Definition next_tmp (w : world) : world :=
  World (files w) (tmp_names w) (S (tmp_count w)) (log w).

(** ** The monad of Python statements *)

Definition M (A : Type) : Type := world → result A * world.

#[export] Instance M_ret : MRet M := λ A a w, (Ok a, w).

#[export] Instance M_bind : MBind M := λ A B f m w,
  match m w with
  | (Ok a, w') => f a w'
  | (Raise e, w') => (Raise e, w')
  end.

Definition raise {A} (e : exn) : M A := λ w, (Raise e, w).

Definition lift {A} (r : result A) : M A := λ w, (r, w).

Definition get_files : M (gmap string file) := λ w, (Ok (files w), w).

Definition emit (e : event) : M unit := λ w, (Ok tt, add_event e w).

(** [try: body finally: cleanup] *)
Definition try_finally {A} (body : M A) (cleanup : M unit) : M A := λ w,
  let '(r, w1) := body w in
  match cleanup w1 with
  | (Ok _, w2) => (r, w2)
  | (Raise e, w2) => (Raise e, w2)
  end.

(** [try: body except Exception as e: handler e] *)
Definition try_except {A} (body : M A) (handler : exn → M A) : M A := λ w,
  match body w with
  | (Ok a, w1) => (Ok a, w1)
  | (Raise e, w1) => handler e w1
  end.

(** [for x in xs: state = body x state] *)
Fixpoint for_each {A S} (xs : list A) (body : A → S → M S) (s : S) : M S :=
  match xs with
  | [] => mret s
  | x :: xs' => s' ← body x s; for_each xs' body s'
  end.

(** *** Files *)

Definition write_file (fn : string) (f : file) : M unit := λ w,
  (Ok tt, set_files (insert fn f) w).

Definition read_file (fn : string) : M file :=
  fs ← get_files;
  match fs !! fn with
  | Some f => mret f
  | None => raise (Exn "FileNotFoundError" fn)
  end.

(** [tempfile.mkdtemp()]: the next name of the operating system. *)
Definition mkdtemp : M string := λ w,
  (Ok (tmp_names w (tmp_count w)), next_tmp w).

Definition in_dir (d p : string) : bool := String.prefix (os_path_join d "") p.

(** [shutil.rmtree(d)]: every file below [d] is gone. *)
Definition rmtree (d : string) : M unit := λ w,
  (Ok tt, set_files (filter (λ kv, in_dir d kv.1 = false)) w).

(** [sio.loadmat(fn)] *)
Definition sio_loadmat (fn : string) : M (gmap string ndarray) :=
  f ← read_file fn;
  match f with
  | FMat vars => mret vars
  | _ => raise (Exn "ValueError" "Unknown mat file type")
  end.

(** [d[key]] on a dict *)
Definition getitem {V} (d : gmap string V) (key : string) : M V :=
  match d !! key with
  | Some v => mret v
  | None => raise (Exn "KeyError" key)
  end.

(** The message [process_func] puts on the queue: [(ret, error)] with
    [error = (ex_type, ex_value, ''.join(traceback.format_tb(tb)))]; of the
    exception instance [ex_value] the parent uses [str(ex_value)]. *)
Definition queue_message (A : Type) : Type :=
  option A * option (string * string * string).

(** ** Collaborators outside the source file

    [utils], [decode_model], [librosa], [scipy.io.wavfile], [os.path], the
    programs started with [subprocess.run], and what Python does with the
    exception classes of the worker are not part of the file; the model is
    parametric in them. *)
Class Externals := {
  (* [ex_type(message)]: the instance the class of that name makes of one
     string, or the exception the call raises *)
  new_exception : string → string → result exn;
  (* [q.get()]: the exception it raises when the message the child has put
     cannot be read back (unpickled) in the parent, if it does; otherwise the
     message arrives as it was put *)
  q_get_error : ∀ A : Type, queue_message A → option exn;
  (* numpy *)
  np_hamming : Z → list F;
  astype_int16 : F → Z;
  (* librosa.core.load(file, sr=None) on the content of the file *)
  librosa_load : file → result (list F * Z);
  (* utils: signal processing *)
  peak_normalization : list F → result (list F);
  wav2logspec : list F → list F → result ndarray;
  logspec2wav : ndarray → list F → list F → Z → Z → result (list F);
  (* decode_model.decode_model(scp_fn, out_dir, n_freqs, use_gpu, gpu_id), as
     imported: it runs in the worker process, on the same file system *)
  decode_model_orig : string → string → Z → bool → Z → world → outcome unit * world;
  (* utils: inspection of audio files *)
  is_wav : string → gmap string file → bool;
  get_file_type : string → gmap string file → string;
  get_sr : string → gmap string file → Z;
  get_bitdepth : string → gmap string file → Z;
  get_num_channels : string → gmap string file → Z;
  listdir : string → gmap string file → list string;
  (* os, os.path, str *)
  HERE : string;                           (* directory of the script *)
  os_path_exists : string → gmap string file → bool;
  os_makedirs : string → world → result unit * world;
  os_path_splitext : string → string * string;
  os_path_basename : string → string;
  os_path_dirname : string → string;
  strip_root : string → string → string;   (* s.replace(root, '', 1).lstrip('/') *)
  (* subprocess.run(argv, ...).returncode *)
  subprocess_run : list string → world → result Z * world;
}.

Context {env : Externals}.

(** ** [processify]: run a function as a process *)

(** [process_func], in the child: the function is applied
    to its arguments in [func]; the value is what [q.put] sends. *)
Definition process_func {A} (func : world → outcome A * world)
  : world → queue_message A * world := λ w,
  let '(o, w') := func w in
  match o with
  | Raised e tb => ((None, Some (ex_type e, ex_value e, str_join tb)), w')
  | Returned ret => ((Some ret, None), w')
  end.

(** [q.get()] in the parent, which blocks until the child has put its
    message: the child's run is placed there. *)
Definition q_get {A} (child : world → queue_message A * world)
  : M (queue_message A) := λ w,
  let '(msg, w') := child w in
  match q_get_error A msg with
  | Some e => (Raise e, w')
  | None => (Ok msg, w')
  end.

(** [wrapper], in the parent. *)
Definition wrapper {A} (name : string) (func : world → outcome A * world)
  : M (option A) :=
  emit (EvStart name);;
  '(ret, error) ← q_get (process_func func);
  emit (EvJoin name);;
  match error with
  | Some (ex_type, ex_value, tb_str) =>
      let message := ex_value +:+ " (in subprocess)" +:+ nl +:+ tb_str in
      e ← lift (new_exception ex_type message);
      raise e
  | None => mret ret
  end.

Definition processify {A} (name : string) (func : world → outcome A * world)
  : M (option A) := wrapper name func.

(** [decode_model = processify(decode_model)] *)
Definition decode_model (scp_fn out_dir : string) (n_freqs : Z)
    (use_gpu : bool) (gpu_id : Z) : M (option unit) :=
  processify "decode_model"
    (decode_model_orig scp_fn out_dir n_freqs use_gpu gpu_id).

(** *** The decoder behind the process boundary *)

(** Modelled from the spec: [decode_model.py] is not among the source files.
    The spec treats the mask-estimation model as an opaque function from an
    ordered sequence of normalized log-power-spectrum frames (plus the device
    options) to a ratio mask, and the caller's comment says that the mask is
    output to the temp directory as [irm.mat]; the caller reads it back under
    the key [IRM].  The frames are the ones the script file names:
    [label=feature_fn[first,last]], bounds inclusive. *)
Definition decode_model_spec (estimate : ndarray → bool → Z → outcome ndarray)
    (scp_fn out_dir : string) (n_freqs : Z) (use_gpu : bool) (gpu_id : Z)
  : world → outcome unit * world := λ w,
  match files w !! scp_fn with
  | Some (FScp label feature_fn first last) =>
      match files w !! feature_fn with
      | Some (FHtk data _ _) =>
          let frames := NdArray (ncols data) (py_slice (rows data) first (last + 1)) in
          match estimate frames use_gpu gpu_id with
          | Returned mask =>
              (Returned tt,
               set_files (insert (os_path_join out_dir "irm.mat")
                            (FMat {[ "IRM" := mask ]})) w)
          | Raised e tb => (Raised e tb, w)
          end
      | _ => (Raised (Exn "IOError" feature_fn) [], w)
      end
  | _ => (Raised (Exn "IOError" scp_fn) [], w)
  end.

(** *** The synthesis *)

(** Modelled from the spec: the numeric kernels of [utils.logspec2wav], which
    is not among the source files.  Section 4.1 of the spec names them: the
    conversion of LPS frames back to a magnitude spectrum, the phase of the
    chunk (of its short-time Fourier transform under the window and the hop),
    and the inverse STFT with overlap-add that produces a sample sequence of
    a given length.  What they compute is left open. *)
Record SpectralKernels := {
  (* LPS frames to a magnitude spectrum *)
  lps_to_magnitude : ndarray → ndarray;
  (* the phase of the STFT of the samples, for a window, a segment length and
     an overlap *)
  stft_phase : list F → list F → Z → Z → ndarray;
  (* the inverse STFT with overlap-add of a magnitude and a phase, trimmed to
     a number of samples *)
  istft : ndarray → ndarray → list F → Z → Z → nat → result (list F);
}.

(** Modelled from the spec: [utils.logspec2wav] is not among the source
    files.  Section 4.1 of the spec: synthesis converts the masked LPS frames
    back to a magnitude spectrum, pairs it with the phase of the original,
    unmasked chunk (the reference samples; the mask is applied to the
    magnitude only, the phase is never altered), performs the inverse STFT
    with overlap-add using the same window and hop, and produces a sample
    sequence of the length of the input chunk. *)
Definition logspec2wav_spec (K : SpectralKernels) (lps : ndarray)
    (wave window : list F) (n_per_seg noverlap : Z) : result (list F) :=
  let magnitude := lps_to_magnitude K lps in
  let phase := stft_phase K wave window n_per_seg noverlap in
  istft K magnitude phase window n_per_seg noverlap (length wave).

(** Modelled from the spec: the inverse synthesis keeps the phase exactly
    (section 1: inverse synthesis with exact phase preservation; section 4.1:
    the phase is never altered), so the signal synthesised with the phase of
    a reference signal has that phase again. *)
Definition phase_preserving (K : SpectralKernels) : Prop :=
  ∀ magnitude wave window n_per_seg noverlap out,
    istft K magnitude (stft_phase K wave window n_per_seg noverlap)
      window n_per_seg noverlap (length wave) = Ok out →
    stft_phase K out window n_per_seg noverlap =
    stft_phase K wave window n_per_seg noverlap.

(** ** [denoise_wav] *)

(** [utils.write_htk(filename, data, samp_period, parm_kind)] *)
Definition write_htk (fn : string) (data : ndarray) (samp_period parm_kind : Z) : M unit :=
  write_file fn (FHtk data samp_period parm_kind).

(** [wav_io.write(filename, rate, data)] for a 1-D array *)
Definition wav_io_write (fn : string) (rate : Z) (data : list Z) : M unit :=
  write_file fn (FWav rate [data]).

(** [int(math.ceil(size / chunk_length))] with true division of two ints *)
Definition total_chunks_of (size chunk_length : Z) : result Z :=
  if decide (chunk_length = 0)
  then Raise (Exn "ZeroDivisionError" "division by zero")
  else Ok (Qceiling (inject_Z size / inject_Z chunk_length)).

(** [int(truncate_minutes*rate*60)] for a float [truncate_minutes] and an
    int [rate]. *)
Definition chunk_length_product (truncate_minutes : py_float) (rate : Z)
  : result py_float :=
  x ← float_mul_int truncate_minutes rate;
  float_mul_int x 60.

Definition chunk_length_of (truncate_minutes : py_float) (rate : Z) : result Z :=
  x ← chunk_length_product truncate_minutes rate;
  py_int x.

(** Do MVN before decoding: [(noisy_htkdata - global_mean) / global_var]. *)
Definition normed_noisy (noisy_htkdata global_mean global_var : ndarray) : result ndarray :=
  centred ← np_sub noisy_htkdata global_mean;
  np_div centred global_var.

(** Read in IRM and directly mask the original LPS features:
    [noisy_htkdata + np.log(irm)]. *)
Definition masked_lps (noisy_htkdata irm : ndarray) : result ndarray :=
  np_add noisy_htkdata (np_log irm).

(** The body of the loop over chunks, for chunk number [i]; [data_se] holds the
    enhanced audio of the chunks before it. *)
Definition denoise_wav_chunk (src_wav_file : string) (wav_data : list F)
    (global_mean global_var : ndarray) (use_gpu : bool) (gpu_id : Z)
    (chunk_length total_chunks : Z) (i : Z) (data_se : list (list F))
  : M (list (list F)) :=
  tmp_dir ← mkdtemp;
  try_finally
    ((* Get samples for this chunk. *)
     let bi := (i - 1) * chunk_length in
     let ei := bi + chunk_length in
     let temp := py_slice wav_data bi ei in
     emit (EvPrint ("Processing file: " +:+ src_wav_file +:+ ", segment: "
                      +:+ pretty i +:+ "/" +:+ pretty total_chunks +:+ "."));;
     (* Skip denoising if chunk is too short. *)
     if bool_decide (Z.of_nat (length temp) < WL2) then mret (data_se ++ [temp])
     else
       (* Determine paths to the temporary files to be created. *)
       let noisy_normed_lps_fn := os_path_join tmp_dir "noisy_normed_lps.htk" in
       let noisy_normed_lps_scp_fn := os_path_join tmp_dir "noisy_normed_lps.scp" in
       let irm_fn := os_path_join tmp_dir "irm.mat" in
       (* Extract LPS features from waveform. *)
       noisy_htkdata ← lift (wav2logspec temp (np_hamming WL));
       (* Do MVN before decoding. *)
       normed ← lift (normed_noisy noisy_htkdata global_mean global_var);
       (* Write features to HTK binary format and create a script file. *)
       write_htk noisy_normed_lps_fn normed SR 9;;
       let cntk_len := Z.of_nat (nrows noisy_htkdata) - 1 in
       write_file noisy_normed_lps_scp_fn (FScp "irm" noisy_normed_lps_fn 0 cntk_len);;
       (* Apply the model in a separate process. *)
       decode_model noisy_normed_lps_scp_fn tmp_dir NFREQS use_gpu gpu_id;;
       (* Read in IRM and directly mask the original LPS features. *)
       vars ← sio_loadmat irm_fn;
       irm ← getitem vars "IRM";
       masked ← lift (masked_lps noisy_htkdata irm);
       (* Reconstruct audio. *)
       wave_recon ← lift (logspec2wav masked temp (np_hamming WL) WL WL2);
       mret (data_se ++ [wave_recon]))
    (rmtree tmp_dir).

(** Names for what the loop body computes, used in the statements below:
    the samples of chunk [i], the progress line, and the world in which the
    worker process starts (the temporary directory has its name, the line is
    printed, the feature file and the script file are written). *)
Definition chunk (wav_data : list F) (chunk_length i : Z) : list F :=
  py_slice wav_data ((i - 1) * chunk_length) ((i - 1) * chunk_length + chunk_length).

Definition progress_line (src_wav_file : string) (i total_chunks : Z) : string :=
  "Processing file: " +:+ src_wav_file +:+ ", segment: "
    +:+ pretty i +:+ "/" +:+ pretty total_chunks +:+ ".".

Definition worker_start (w : world) (line : string) (normed : ndarray) (cntk_len : Z)
  : world :=
  let tmp_dir := tmp_names w (tmp_count w) in
  let htk_fn := os_path_join tmp_dir "noisy_normed_lps.htk" in
  let scp_fn := os_path_join tmp_dir "noisy_normed_lps.scp" in
  add_event (EvStart "decode_model")
    (set_files (insert scp_fn (FScp "irm" htk_fn 0 cntk_len))
       (set_files (insert htk_fn (FHtk normed SR 9))
          (add_event (EvPrint line) (next_tmp w)))).

Definition denoise_wav (src_wav_file dest_wav_file : string)
    (global_mean global_var : ndarray) (use_gpu : bool) (gpu_id : Z)
    (truncate_minutes : py_float) : M unit :=
  f ← read_file src_wav_file;
  '(y, rate) ← lift (librosa_load f);
  let wav_data := map (λ s, fmul s (f_of_Z (2 ^ 15))) y in
  (* Apply peak-normalization. *)
  wav_data ← lift (peak_normalization wav_data);
  (* Perform denoising in chunks of size chunk_length samples. *)
  chunk_length ← lift (chunk_length_of truncate_minutes rate);
  total_chunks ← lift (total_chunks_of (Z.of_nat (length wav_data)) chunk_length);
  data_se ← for_each (py_range 1 (total_chunks + 1))
              (denoise_wav_chunk src_wav_file wav_data global_mean global_var
                 use_gpu gpu_id chunk_length total_chunks) [];
  let data_se := map (map astype_int16) data_se in
  data_se ← lift (np_concatenate data_se);
  wav_io_write dest_wav_file SR data_se.

(** *** What [denoise_wav] computes

    The same computation without the world, for a decoder that is
    [decode_model_spec estimate]: the enhanced samples as a function of the
    chunk, and the samples written to the destination as a function of the
    content of the source file.  The theorems below relate them to
    [denoise_wav_chunk] and [denoise_wav]. *)

(** The message [process_func] puts for an outcome of the function. *)
Definition sent {A} (o : outcome A) : queue_message A :=
  match o with
  | Raised e tb => (None, Some (ex_type e, ex_value e, str_join tb))
  | Returned ret => (Some ret, None)
  end.

(** The message of [wrapper]'s exception, and the exception that leaves
    [raise ex_type(message)]: the new instance, or what the call of the class
    raises. *)
Definition subprocess_message (e : exn) (tb : list string) : string :=
  ex_value e +:+ " (in subprocess)" +:+ nl +:+ str_join tb.

Definition reraised (e : exn) (tb : list string) : exn :=
  match new_exception (ex_type e) (subprocess_message e tb) with
  | Ok e' => e'
  | Raise e' => e'
  end.

(** What [wrapper] returns or raises for an outcome of the function. *)
Definition wrapper_result {A} (o : outcome A) : result (option A) :=
  match q_get_error A (sent o) with
  | Some e => Raise e
  | None =>
      match o with
      | Returned ret => Ok (Some ret)
      | Raised e tb => Raise (reraised e tb)
      end
  end.

(** The decoder returns [None]; the mask is in the file it has written. *)
Definition decoder_outcome (o : outcome ndarray) : outcome unit :=
  match o with
  | Returned _ => Returned tt
  | Raised e tb => Raised e tb
  end.

Definition mask_of_outcome (o : outcome ndarray) : result ndarray :=
  match q_get_error unit (sent (decoder_outcome o)) with
  | Some e => Raise e
  | None =>
      match o with
      | Returned mask => Ok mask
      | Raised e tb => Raise (reraised e tb)
      end
  end.

Definition enhance_chunk (estimate : ndarray → bool → Z → outcome ndarray)
    (global_mean global_var : ndarray) (use_gpu : bool) (gpu_id : Z)
    (temp : list F) : result (list F) :=
  if bool_decide (Z.of_nat (length temp) < WL2) then Ok temp
  else
    noisy_htkdata ← wav2logspec temp (np_hamming WL);
    normed ← normed_noisy noisy_htkdata global_mean global_var;
    let frames := NdArray (ncols normed)
                    (py_slice (rows normed) 0 (Z.of_nat (nrows noisy_htkdata) - 1 + 1)) in
    irm ← mask_of_outcome (estimate frames use_gpu gpu_id);
    masked ← masked_lps noisy_htkdata irm;
    logspec2wav masked temp (np_hamming WL) WL WL2.

Definition enhance_wav (estimate : ndarray → bool → Z → outcome ndarray)
    (src_wav_file : string) (global_mean global_var : ndarray) (use_gpu : bool)
    (gpu_id : Z) (truncate_minutes : py_float) (content : option file)
  : result (list Z) :=
  f ← match content with
      | Some f => Ok f
      | None => Raise (Exn "FileNotFoundError" src_wav_file)
      end;
  '(y, rate) ← librosa_load f;
  wav_data ← peak_normalization (map (λ s, fmul s (f_of_Z (2 ^ 15))) y);
  chunk_length ← chunk_length_of truncate_minutes rate;
  total_chunks ← total_chunks_of (Z.of_nat (length wav_data)) chunk_length;
  data_se ← mapM (λ i, enhance_chunk estimate global_mean global_var use_gpu gpu_id
                         (chunk wav_data chunk_length i))
              (py_range 1 (total_chunks + 1));
  np_concatenate (map (map astype_int16) data_se).

(** What a run leaves at the destination: the file, when the run returned. *)
Definition written {A} (dest_wav_file : string) (run : result A * world)
  : result (option file) :=
  match run with
  | (Ok _, w') => Ok (files w' !! dest_wav_file)
  | (Raise e, _) => Raise e
  end.

(** ** [main_denoising] *)

Definition GLOBAL_MEAN_VAR_MATF : string :=
  os_path_join (os_path_join HERE "model") "global_mvn_stats.mat".

(** Keyword arguments passed on to [denoise_wav].  An int given for
    [truncate_minutes] (the default of the command line is the int 10) is
    written as the float of the same value: the products are the same as long
    as they are below 2^53. *)
Record kwargs := Kwargs { use_gpu : bool; gpu_id : Z; truncate_minutes : py_float }.

(** How the body of the loop over files ends: it falls through to the next
    file, or it executes [return]. *)
Inductive flow := Next | Return.

Fixpoint for_files {A} (xs : list A) (body : A → M flow) : M flow :=
  match xs with
  | [] => mret Next
  | x :: xs' =>
      c ← body x;
      match c with
      | Return => mret Return
      | Next => for_files xs' body
      end
  end.

(** [tempfile.NamedTemporaryFile(suffix=suffix, delete=False).name] *)
Definition named_temporary_file (suffix : string) : M string := λ w,
  let name := tmp_names w (tmp_count w) +:+ suffix in
  (Ok name, set_files (insert name (FOther "")) (next_tmp w)).

(** [with tempfile.TemporaryDirectory(...) as d: body d] *)
Definition with_temporary_directory {A} (body : string → M A) : M A :=
  d ← mkdtemp;
  try_finally (body d) (rmtree d).

(** [r = subprocess.run(cmdline.split(), ...)], then the test of
    [r.returncode]; the result tells whether the command succeeded. *)
Definition run_cmdline (cmdline : string) : M bool :=
  emit (EvPrint ("run: " +:+ cmdline));;
  r ← subprocess_run (py_split cmdline);
  if decide (r ≠ 0)
  then emit (EvPrint ("run failed: " +:+ cmdline));; mret false
  else mret true.

(** The conversion of an input that is not a WAV file: the body of the [try]
    statement, where [None] stands for the [return] after a failed run, and
    the statement with its bare [except], which catches whatever the body
    raises. *)
Definition convert_attempt (src_wav_file : string) : M (option string) :=
  fp_name ← named_temporary_file ".wav";
  (* run WAV conversion *)
  let cmdline := "ffmpeg -y -i " +:+ src_wav_file
                   +:+ " -flags bitexact -acodec pcm_s16le " +:+ fp_name in
  ok ← run_cmdline cmdline;
  if ok : bool then mret (Some fp_name) else mret None.

Definition convert_to_wav (src_wav_file : string) : M (option string) :=
  try_except
    (convert_attempt src_wav_file)
    (λ e,
       (* raised while [e] is handled: [e] becomes the context *)
       fs ← get_files;
       raise (ExnC "Exception"
                ("File " +:+ dq +:+ src_wav_file +:+ dq
                   +:+ " could not be converted to valid WAV. Type: "
                   +:+ get_file_type src_wav_file fs)
                (Some e))).

(** ["{}_enhanced{}".format(os.path.join(tempoutdir, ch_filename), ch_ext)] *)
Definition dest_ch_file (tempoutdir ch_file : string) : string :=
  let '(ch_filename, ch_ext) := os_path_splitext (os_path_basename ch_file) in
  os_path_join tempoutdir ch_filename +:+ "_enhanced" +:+ ch_ext.

Definition problem_message (ch_file : string) : string :=
  "Problem encountered while processing file " +:+ dq +:+ ch_file +:+ dq +:+ ":".

(** Perform denoising on one channel file, write to the temporary output
    directory. *)
Definition denoise_channel (tempoutdir : string) (global_mean global_var : ndarray)
    (kw : kwargs) (ch_file : string) : M unit :=
  try_except
    (denoise_wav ch_file (dest_ch_file tempoutdir ch_file) global_mean global_var
       (use_gpu kw) (gpu_id kw) (truncate_minutes kw);;
     emit (EvPrint ("Finished processing file " +:+ dq +:+ ch_file +:+ dq +:+ ".")))
    (λ e,
       let msg := problem_message ch_file in
       emit (EvError msg);;
       raise e).

(** The command line that splits a WAV file into individual channel files and
    converts them to 16-bit SR kHz. *)
Definition split_cmdline (src_wav_file : string) (channels : Z) (tempindir : string)
  : string :=
  "ffmpeg -i " +:+ src_wav_file +:+
  str_join (map (λ n, " -map_channel 0.0." +:+ pretty n
                        +:+ " -acodec pcm_s16le -ar " +:+ pretty SR +:+ " "
                        +:+ os_path_join tempindir ("ch" +:+ pretty n +:+ ".wav"))
              (py_range 0 channels)).

(** The command line that merges the denoised channels into a single WAV. *)
Definition merge_cmdline (ch_files : list string) (channels : Z) (dest_wav_file : string)
  : string :=
  "ffmpeg" +:+ str_join (map (λ ch_file, " -i " +:+ ch_file) ch_files)
    +:+ " -flags bitexact -filter_complex "
    +:+ str_join (map (λ n, "[" +:+ pretty n +:+ ":a]") (py_range 0 channels))
    +:+ "join=inputs=" +:+ pretty channels +:+ ":channel_layout="
    +:+ pretty channels +:+ "c[a] -map [a] " +:+ dest_wav_file.

(** The part of the loop body under the two [TemporaryDirectory] managers. *)
Definition split_denoise_merge (output_dir filename ext src_wav_file : string)
    (channels : Z) (global_mean global_var : ndarray) (kw : kwargs)
    (tempindir tempoutdir : string) : M flow :=
  (* split WAV file into individual channel files *)
  ok ← run_cmdline (split_cmdline src_wav_file channels tempindir);
  if ok : bool then
    (* Perform denoising on individual channel files *)
    fs ← get_files;
    for_each (listdir tempindir fs)
      (λ ch_file _, denoise_channel tempoutdir global_mean global_var kw ch_file) tt;;
    (* merge denoised channels into single WAV *)
    let subdir_path := os_path_join output_dir (os_path_dirname filename) in
    fs ← get_files;
    (if os_path_exists subdir_path fs then mret tt
     else λ w, os_makedirs subdir_path w);;
    let dest_wav_file := os_path_join output_dir filename +:+ "_enhanced" +:+ ext in
    fs ← get_files;
    ok ← run_cmdline (merge_cmdline (listdir tempoutdir fs) channels dest_wav_file);
    if ok : bool then mret Next else mret Return
  else mret Return.

(** Truth value of an optional string: [None] and [''] are false. *)
Definition truthy (s : option string) : bool :=
  match s with
  | None | Some EmptyString => false
  | Some _ => true
  end.

(** Basic checks of the input WAV, up to the channel count: the file to work
    on (the input or its conversion) and its number of channels; [None]
    stands for the [return] after a failed conversion run. *)
Definition check_input (src_wav_file : string) : M (option (string * Z)) :=
  fs ← get_files;
  if negb (os_path_exists src_wav_file fs)
  then raise (Exn "Exception"
                ("File " +:+ dq +:+ src_wav_file +:+ dq +:+ " does not exist."))
  else
    converted ← (if is_wav src_wav_file fs then mret (Some src_wav_file)
                 else convert_to_wav src_wav_file);
    match converted with
    | None => mret None
    | Some src_wav_file =>
        fs ← get_files;
        (if decide (get_sr src_wav_file fs ≠ SR)
         then emit (EvWarn ("Sample rate of file " +:+ dq +:+ src_wav_file +:+ dq
                              +:+ " is " +:+ pretty (get_sr src_wav_file fs)
                              +:+ " Hz. Will convert to " +:+ pretty SR +:+ " Hz."))
         else mret tt);;
        (if decide (get_bitdepth src_wav_file fs ≠ BITDEPTH)
         then emit (EvWarn ("Bitdepth of file " +:+ dq +:+ src_wav_file +:+ dq
                              +:+ " is " +:+ pretty (get_bitdepth src_wav_file fs)
                              +:+ ". Will convert to " +:+ pretty BITDEPTH +:+ "."))
         else mret tt);;
        let channels := get_num_channels src_wav_file fs in
        if decide (channels < 1)
        then raise (Exn "Exception"
                      ("File " +:+ dq +:+ src_wav_file +:+ dq
                         +:+ " does not have a valid channel layout."))
        else mret (Some (src_wav_file, channels))
    end.

(** The body of the loop over [wav_files]. *)
Definition main_denoising_file (output_dir : string) (wav_dir : option string)
    (global_mean global_var : ndarray) (kw : kwargs) (src_wav_file : string)
  : M flow :=
  (* Capture input filename and extension. *)
  let '(filename, ext) :=
    if truthy wav_dir
    then os_path_splitext (strip_root src_wav_file (default "" wav_dir))
    else os_path_splitext (os_path_basename src_wav_file) in
  checked ← check_input src_wav_file;
  match checked with
  | None => mret Return
  | Some (src_wav_file, channels) =>
      with_temporary_directory (λ tempindir,
        with_temporary_directory (λ tempoutdir,
          split_denoise_merge output_dir filename ext src_wav_file channels
            global_mean global_var kw tempindir tempoutdir))
  end.

Definition main_denoising (wav_files : list string) (output_dir : string)
    (wav_dir : option string) (verbose : bool) (kw : kwargs) : M unit :=
  (* Load global MVN statistics. *)
  global_mean_var ← sio_loadmat GLOBAL_MEAN_VAR_MATF;
  global_mean ← getitem global_mean_var "global_mean";
  global_var ← getitem global_mean_var "global_var";
  (* Perform speech enhancement. *)
  for_files wav_files
    (main_denoising_file output_dir wav_dir global_mean global_var kw);;
  mret tt.

End Model.

(** ** A concrete instance, for the examples

    Floating point values are uninterpreted expressions, so that an example
    shows which operations were applied to which sample; the collaborators are
    small stand-ins with the interface of the real ones. *)

Inductive expr :=
| TConst (z : Z)
| TAdd (a b : expr)
| TSub (a b : expr)
| TMul (a b : expr)
| TDiv (a b : expr)
| TLog (a : expr)
| TFun (name : string) (a : expr) (k : Z).   (* a kernel applied to a value, at index k *)

#[export] Instance expr_ops : FloatOps expr :=
  {| fadd := TAdd; fsub := TSub; fmul := TMul; fdiv := TDiv; flog := TLog;
     f_of_Z := TConst |}.

Module Demo.

(** An integer reading of an expression, wrapped to 16 bits. *)
Fixpoint eval (t : expr) : Z :=
  match t with
  | TConst z => z
  | TAdd a b => eval a + eval b
  | TSub a b => eval a - eval b
  | TMul a b => eval a * eval b
  | TDiv a b => Z.quot (eval a) (eval b)
  | TLog a => Z.log2 (eval a)
  | TFun _ a _ => eval a
  end.

Definition astype_int16 (t : expr) : Z := (eval t + 2 ^ 15) `mod` 2 ^ 16 - 2 ^ 15.

Definition np_hamming (n : Z) : list expr :=
  map (λ k, TFun "hamming" (TConst k) n) (py_range 0 n).

(** Mono PCM files only. *)
Definition librosa_load (f : @file expr) : result (list expr * Z) :=
  match f with
  | FWav rate [ch] => Ok (map (λ z, TDiv (TConst z) (TConst (2 ^ 15))) ch, rate)
  | _ => Raise (Exn "NoBackendError" "")
  end.

Definition peak_normalization (wave : list expr) : result (list expr) := Ok wave.

(** One frame per 256 samples, 257 bins per frame. *)
Definition wav2logspec (temp window : list expr) : result (@ndarray expr) :=
  Ok (NdArray 257
        (map (λ i, map (λ j, TFun "lps" (nth (i * 256 + j `mod` 256)%nat temp (TConst 0))
                               (Z.of_nat j))
                     (seq 0 257))
           (seq 0 (length temp `div` 256)%nat))).

(** The kernels of the synthesis: a magnitude per entry of the frames, one
    row of 256 phases per 256 samples of the reference signal, and sample k
    the product of magnitude k and phase k.  The phase of such a product is
    its phase factor; the phase of any other sample is a symbol of its own. *)
Definition lps_to_magnitude (lps : @ndarray expr) : @ndarray expr :=
  NdArray (ncols lps) (map (map (λ x, TFun "magnitude" x 0)) (rows lps)).

Definition phase_of (j : nat) (s : expr) : expr :=
  match s with
  | TMul _ (TFun name p k) =>
      if decide (name = "phase") then TFun "phase" p k
      else TFun "phase" s (Z.of_nat j)
  | _ => TFun "phase" s (Z.of_nat j)
  end.

Definition stft_phase (wave window : list expr) (n_per_seg noverlap : Z)
  : @ndarray expr :=
  NdArray 256
    (map (λ i, map (λ j, phase_of j (nth (i * 256 + j)%nat wave (TConst 0)))
                 (seq 0 256))
       (seq 0 (length wave `div` 256)%nat)).

Definition istft (magnitude phase : @ndarray expr) (window : list expr)
    (n_per_seg noverlap : Z) (n : nat) : result (list expr) :=
  if decide (nrows magnitude = nrows phase)
  then Ok (map (λ k, TMul (default (TConst 0)
                             (entry magnitude (k `div` 256)%nat (k `mod` 256)%nat))
                          (default (TConst 0)
                             (entry phase (k `div` 256)%nat (k `mod` 256)%nat)))
             (seq 0 n))
  else Raise (Exn "ValueError" "operands could not be broadcast together").

(** Exception classes: UnicodeDecodeError takes five arguments; ModelError
    is a class of two arguments, [layer] and [reason], that passes one string
    on to [Exception], so an instance of it cannot be unpickled; every other
    class is made of one string. *)
Definition new_exception (ex_type message : string) : result exn :=
  if decide (ex_type = "UnicodeDecodeError")
  then Raise (Exn "TypeError" "function takes exactly 5 arguments (1 given)")
  else if decide (ex_type = "ModelError")
  then Raise (Exn "TypeError"
                "ModelError.__init__() missing 1 required positional argument: 'reason'")
  else Ok (Exn ex_type message).

Definition q_get_error (A : Type) (msg : queue_message A) : option exn :=
  match msg.2 with
  | Some (ex_type, _, _) =>
      if decide (ex_type = "ModelError")
      then Some (Exn "TypeError"
                   "ModelError.__init__() missing 1 required positional argument: 'reason'")
      else None
  | None => None
  end.

(** A mask model that gives up on more than two frames. *)
Definition model (frames : @ndarray expr) (use_gpu : bool) (gpu_id : Z)
  : outcome (@ndarray expr) :=
  if decide (nrows frames ≤ 2)%nat
  then Returned (NdArray (ncols frames) (map (map (λ x, TFun "irm" x 0)) (rows frames)))
  else Raised (Exn "RuntimeError" "CUDA failure 2: out of memory")
         ["  File decode_model.py, in decode_model" +:+ nl].

(** A mask model that answers with a single row, whatever the frame count. *)
Definition row_model (frames : @ndarray expr) (use_gpu : bool) (gpu_id : Z)
  : outcome (@ndarray expr) :=
  Returned (NdArray (ncols frames)
              (take 1 (map (map (λ x, TFun "irm" x 0)) (rows frames)))).

(** Paths *)
Fixpoint split_last (c : Ascii.ascii) (s : string) : option (string * string) :=
  match s with
  | EmptyString => None
  | String a s' =>
      match split_last c s' with
      | Some (before, after) => Some (String a before, after)
      | None => if decide (a = c) then Some (EmptyString, s') else None
      end
  end.

Definition slash : Ascii.ascii := Ascii.ascii_of_nat 47.
Definition dot : Ascii.ascii := Ascii.ascii_of_nat 46.

Definition os_path_basename (p : string) : string :=
  match split_last slash p with Some (_, after) => after | None => p end.

Definition os_path_dirname (p : string) : string :=
  match split_last slash p with Some (before, _) => before | None => "" end.

Definition os_path_splitext (p : string) : string * string :=
  match split_last dot p with
  | Some (before, after) => (before, String dot after)
  | None => (p, "")
  end.

Fixpoint lstrip_slash (s : string) : string :=
  match s with
  | String a s' => if decide (a = slash) then lstrip_slash s' else s
  | EmptyString => s
  end.

Definition strip_root (s root : string) : string :=
  lstrip_slash
    (if String.prefix root s
     then String.substring (String.length root) (String.length s - String.length root)%nat s
     else s).

(** Inspection of audio files *)
Definition is_wav (p : string) (fs : gmap string (@file expr)) : bool :=
  match fs !! p with Some (FWav _ _) => true | _ => false end.

Definition get_file_type (p : string) (fs : gmap string (@file expr)) : string :=
  match fs !! p with Some (FOther kind) => kind | _ => "data" end.

Definition get_sr (p : string) (fs : gmap string (@file expr)) : Z :=
  match fs !! p with Some (FWav rate _) => rate | _ => 0 end.

Definition get_bitdepth (p : string) (fs : gmap string (@file expr)) : Z := 16.

Definition get_num_channels (p : string) (fs : gmap string (@file expr)) : Z :=
  match fs !! p with Some (FWav _ chans) => Z.of_nat (length chans) | _ => 0 end.

Definition listdir (d : string) (fs : gmap string (@file expr)) : list string :=
  filter (λ p, in_dir d p = true) (map_to_list fs).*1.

Definition os_path_exists (p : string) (fs : gmap string (@file expr)) : bool :=
  bool_decide (is_Some (fs !! p)).

Definition os_makedirs (p : string) (w : @world expr) : result unit * @world expr :=
  (Ok tt, w).

(** A stand-in for the ffmpeg runs of the source. *)
Fixpoint inputs (argv : list string) : list string * list string :=
  match argv with
  | flag :: f :: rest =>
      if decide (flag = "-i")
      then let '(ins, rest') := inputs rest in (f :: ins, rest')
      else ([], argv)
  | _ => ([], argv)
  end.

(** Groups [-map_channel 0.0.n -acodec pcm_s16le -ar 16000 out], one per
    channel. *)
Fixpoint split_channels (argv : list string) (chans : list (list Z))
    (fs : gmap string (@file expr)) : option (gmap string (@file expr)) :=
  match argv, chans with
  | [], _ => Some fs
  | flag :: _ :: _ :: _ :: _ :: _ :: out :: argv', ch :: chans' =>
      if decide (flag = "-map_channel")
      then split_channels argv' chans' (<[out := FWav SR [ch]]> fs)
      else None
  | _, _ => None
  end.

Definition channels_of (fs : gmap string (@file expr)) (p : string) : list (list Z) :=
  match fs !! p with Some (FWav _ chans) => chans | _ => [] end.

Definition subprocess_run (argv : list string) (w : @world expr)
  : result Z * @world expr :=
  match argv with
  | prog :: argv' =>
      if decide (prog = "ffmpeg") then
        if decide (head argv' = Some "-y") then
          (* conversion: ffmpeg -y -i src ... dst *)
          match argv' !! 2%nat, last argv' with
          | Some src, Some dst =>
              match files w !! src with
              | Some (FWav rate chans) =>
                  (Ok 0, set_files (insert dst (FWav rate chans)) w)
              | _ => (Ok 1, w)
              end
          | _, _ => (Ok 1, w)
          end
        else
          let '(ins, rest) := inputs argv' in
          if decide (head rest = Some "-map_channel") then
            match ins with
            | [src] =>
                match split_channels rest (channels_of (files w) src) (files w) with
                | Some fs => (Ok 0, set_files (λ _, fs) w)
                | None => (Ok 1, w)
                end
            | _ => (Ok 1, w)
            end
          else if decide (head rest = Some "-flags") then
            match last rest with
            | Some dest =>
                (Ok 0, set_files (insert dest (FWav SR (ins ≫= channels_of (files w)))) w)
            | None => (Ok 1, w)
            end
          else (Ok 1, w)
      else (Raise (Exn "FileNotFoundError" prog), w)
  | [] => (Raise (Exn "IndexError" "list index out of range"), w)
  end.

End Demo.

Definition demo_kernels : @SpectralKernels expr :=
  {| lps_to_magnitude := Demo.lps_to_magnitude;
     stft_phase := Demo.stft_phase;
     istft := Demo.istft |}.

(** The collaborators around a given mask model. *)
Definition demo_env (estimate : @ndarray expr → bool → Z → outcome (@ndarray expr))
  : @Externals expr :=
  {| new_exception := Demo.new_exception;
     q_get_error := Demo.q_get_error;
     np_hamming := Demo.np_hamming;
     astype_int16 := Demo.astype_int16;
     librosa_load := Demo.librosa_load;
     peak_normalization := Demo.peak_normalization;
     wav2logspec := Demo.wav2logspec;
     logspec2wav := logspec2wav_spec demo_kernels;
     decode_model_orig := decode_model_spec estimate;
     is_wav := Demo.is_wav;
     get_file_type := Demo.get_file_type;
     get_sr := Demo.get_sr;
     get_bitdepth := Demo.get_bitdepth;
     get_num_channels := Demo.get_num_channels;
     listdir := Demo.listdir;
     HERE := "/opt/denoising";
     os_path_exists := Demo.os_path_exists;
     os_makedirs := Demo.os_makedirs;
     os_path_splitext := Demo.os_path_splitext;
     os_path_basename := Demo.os_path_basename;
     os_path_dirname := Demo.os_path_dirname;
     strip_root := Demo.strip_root;
     subprocess_run := Demo.subprocess_run |}.

(** The world of the examples: the statistics asset and mono inputs of one
    frame (A, C), three frames (B), one frame and 44 samples (D), and no
    sample at all (E). *)
Definition demo_mean : @ndarray expr :=
  NdArray 257 [map (λ j, TFun "mean" (TConst 0) (Z.of_nat j)) (seq 0 257)].

Definition demo_var : @ndarray expr :=
  NdArray 257 [map (λ j, TFun "var" (TConst 1) (Z.of_nat j)) (seq 0 257)].

Definition demo_stats : gmap string (@ndarray expr) :=
  {[ "global_mean" := demo_mean; "global_var" := demo_var ]}.

Definition demo_tmp (n : nat) : string := "/tmp/tmp" +:+ pretty n.

Definition demo_wav (n : nat) (v : Z) : @file expr := FWav 16000 [replicate n v].

Definition demo_files : gmap string (@file expr) :=
  list_to_map
    [("/opt/denoising/model/global_mvn_stats.mat", FMat demo_stats);
     ("in/A.wav", demo_wav 256 100);
     ("in/B.wav", demo_wav 768 200);
     ("in/C.wav", demo_wav 256 300);
     ("in/D.wav", demo_wav 300 400);
     ("in/E.wav", demo_wav 0 0)].

Definition demo_world : @world expr := World demo_files demo_tmp 0 [].

(** The float 10.0: ten minutes. *)
Definition ten_minutes : py_float := float_of_ratio 10 1.

Definition demo_kwargs : kwargs := Kwargs true 0 ten_minutes.

(** What the caller sees when [Demo.model] gives up. *)
Definition demo_failure : exn :=
  Exn "RuntimeError"
    (subprocess_message (Exn "RuntimeError" "CUDA failure 2: out of memory")
       ["  File decode_model.py, in decode_model" +:+ nl]).

(** The value of a result that is known to be [Ok]. *)
Definition get_ok {A} (r : result A) (d : A) : A :=
  match r with Ok a => a | Raise _ => d end.

(** *** Inputs of the examples *)

Definition demo_frames : @ndarray expr :=
  NdArray 3 [[TConst 1; TConst 2; TConst 3]; [TConst 4; TConst 5; TConst 6]].
Definition demo_mean3 : @ndarray expr := NdArray 3 [[TConst 10; TConst 20; TConst 30]].
Definition demo_var3 : @ndarray expr := NdArray 3 [[TConst 7; TConst 8; TConst 9]].

Definition demo_signal (n : nat) (v : Z) : list expr := replicate n (TConst v).

(** One processed chunk of two frames, for the model that answers one row. *)
Definition demo_lps2 : @ndarray expr :=
  get_ok (Demo.wav2logspec (demo_signal 512 7) (Demo.np_hamming WL)) (NdArray 0 []).
Definition demo_normed2 : @ndarray expr :=
  get_ok (normed_noisy demo_lps2 demo_mean demo_var) (NdArray 0 []).
Definition demo_irm_row : @ndarray expr :=
  match Demo.row_model demo_normed2 true 0 with
  | Returned mask => mask
  | Raised _ _ => NdArray 0 []
  end.
Definition demo_after_row_worker : @world expr :=
  snd (decode_model_orig (Externals := demo_env Demo.row_model)
         "/tmp/tmp0/noisy_normed_lps.scp" "/tmp/tmp0" NFREQS true 0
         (worker_start demo_world (progress_line "in/L.wav" 1 1) demo_normed2 1)).

(** One processed chunk of one frame, for the model that answers in shape. *)
Definition demo_lps1 : @ndarray expr :=
  get_ok (Demo.wav2logspec (demo_signal 256 7) (Demo.np_hamming WL)) (NdArray 0 []).
Definition demo_normed1 : @ndarray expr :=
  get_ok (normed_noisy demo_lps1 demo_mean demo_var) (NdArray 0 []).
Definition demo_irm1 : @ndarray expr :=
  match Demo.model demo_normed1 true 0 with
  | Returned mask => mask
  | Raised _ _ => NdArray 0 []
  end.
Definition demo_after_worker : @world expr :=
  snd (decode_model_orig (Externals := demo_env Demo.model)
         "/tmp/tmp0/noisy_normed_lps.scp" "/tmp/tmp0" NFREQS true 0
         (worker_start demo_world (progress_line "in/A.wav" 1 1) demo_normed1 0)).

(** The samples of D after loading and scaling. *)
Definition demo_D : list expr :=
  map (λ s, TMul s (TConst (2 ^ 15)))
    (map (λ z, TDiv (TConst z) (TConst (2 ^ 15))) (replicate 300 400)).

(** Another world with the same inputs: other temporary names, a file more,
    something printed before. *)
Definition demo_world2 : @world expr :=
  World (<["notes.txt" := FOther "text"]> demo_files)
    (λ n, "/var/tmp/job" +:+ pretty n) 7 [EvPrint "earlier"].

(** The batch A, B, C: the worlds in which B is checked, split and denoised. *)
Definition demo_after_A : @world expr :=
  snd (main_denoising_file (env := demo_env Demo.model) "out" None demo_mean demo_var
         demo_kwargs "in/A.wav" demo_world).
Definition demo_B_checked : @world expr :=
  snd (check_input (env := demo_env Demo.model) "in/B.wav" demo_after_A).
Definition demo_B_split : @world expr :=
  snd (run_cmdline (env := demo_env Demo.model)
         (split_cmdline "in/B.wav" 1 "/tmp/tmp3") (next_tmp (next_tmp demo_B_checked))).
Definition demo_B_failed : @world expr :=
  snd (denoise_wav (env := demo_env Demo.model) "/tmp/tmp3/ch0.wav"
         (dest_ch_file (env := demo_env Demo.model) "/tmp/tmp4" "/tmp/tmp3/ch0.wav")
         demo_mean demo_var true 0 ten_minutes demo_B_split).

(** ** Names used in the statements about [main_denoising] *)

Section Statements.
Context {F : Type} {ops : FloatOps F} {env : @Externals F}.

(** The command line of the WAV conversion, as [convert_to_wav] builds it. *)
Definition convert_cmdline (src_wav_file fp_name : string) : string :=
  "ffmpeg -y -i " +:+ src_wav_file +:+ " -flags bitexact -acodec pcm_s16le " +:+ fp_name.

(** The two warnings of [check_input]. *)
Definition sr_warning (src_wav_file : string) (sr : Z) : @event :=
  EvWarn ("Sample rate of file " +:+ dq +:+ src_wav_file +:+ dq
            +:+ " is " +:+ pretty sr +:+ " Hz. Will convert to " +:+ pretty SR +:+ " Hz.").

Definition bitdepth_warning (src_wav_file : string) (bitdepth : Z) : @event :=
  EvWarn ("Bitdepth of file " +:+ dq +:+ src_wav_file +:+ dq
            +:+ " is " +:+ pretty bitdepth +:+ ". Will convert to "
            +:+ pretty BITDEPTH +:+ ".").

(** The world after the warnings about a file of the given rate and depth. *)
Definition warned (src_wav_file : string) (sr bitdepth : Z) (w : @world F) : @world F :=
  let w1 := if decide (sr ≠ SR) then add_event (sr_warning src_wav_file sr) w else w in
  if decide (bitdepth ≠ BITDEPTH)
  then add_event (bitdepth_warning src_wav_file bitdepth) w1 else w1.

End Statements.

(** *** Further inputs of the examples *)

(** The collaborators with [Demo.model] and another [subprocess.run]. *)
Definition demo_env_with
    (run : list string → @world expr → result Z * @world expr) : @Externals expr :=
  {| new_exception := Demo.new_exception;
     q_get_error := Demo.q_get_error;
     np_hamming := Demo.np_hamming;
     astype_int16 := Demo.astype_int16;
     librosa_load := Demo.librosa_load;
     peak_normalization := Demo.peak_normalization;
     wav2logspec := Demo.wav2logspec;
     logspec2wav := logspec2wav_spec demo_kernels;
     decode_model_orig := decode_model_spec Demo.model;
     is_wav := Demo.is_wav;
     get_file_type := Demo.get_file_type;
     get_sr := Demo.get_sr;
     get_bitdepth := Demo.get_bitdepth;
     get_num_channels := Demo.get_num_channels;
     listdir := Demo.listdir;
     HERE := "/opt/denoising";
     os_path_exists := Demo.os_path_exists;
     os_makedirs := Demo.os_makedirs;
     os_path_splitext := Demo.os_path_splitext;
     os_path_basename := Demo.os_path_basename;
     os_path_dirname := Demo.os_path_dirname;
     strip_root := Demo.strip_root;
     subprocess_run := run |}.

(** ffmpeg gives up with code 1; ffmpeg is not installed. *)
Definition failing_ffmpeg (argv : list string) (w : @world expr)
  : result Z * @world expr := (Ok 1, w).

Definition no_ffmpeg (argv : list string) (w : @world expr)
  : result Z * @world expr :=
  (Raise (Exn "FileNotFoundError" "[Errno 2] No such file or directory: 'ffmpeg'"), w).

(** More files: 8 kHz audio (R), a WAV header without channels (Z), and
    something that is not a WAV file. *)
Definition demo_world3 : @world expr :=
  World (<["in/R.wav" := FWav 8000 [replicate 256 5]]>
           (<["in/Z.wav" := FWav 16000 []]>
              (<["in/song.mp3" := FOther "MPEG audio"]> demo_files)))
    demo_tmp 0 [].

(** The statistics file without the variances. *)
Definition demo_world4 : @world expr :=
  World (<["/opt/denoising/model/global_mvn_stats.mat" :=
             FMat {[ "global_mean" := demo_mean ]}]> demo_files) demo_tmp 0 [].

(** The samples of B after loading and scaling, and its three frames. *)
Definition demo_B : list expr :=
  map (λ s, TMul s (TConst (2 ^ 15)))
    (map (λ z, TDiv (TConst z) (TConst (2 ^ 15))) (replicate 768 200)).
Definition demo_lps3 : @ndarray expr :=
  get_ok (Demo.wav2logspec demo_B (Demo.np_hamming WL)) (NdArray 0 []).
Definition demo_normed3 : @ndarray expr :=
  get_ok (normed_noisy demo_lps3 demo_mean demo_var) (NdArray 0 []).

(** Floats of the examples: 1/3750 of a minute (256 samples at 16 kHz),
    1/9600 (100 samples), 0.00001 (9.6 samples), 0.000001 (0.96 samples),
    0.7, 3.7792894935752074e-07, the largest power of two, and -1.0; and
    the products for 0.00001 and 0.000001 at 16 kHz. *)
Definition demo_256_samples : py_float := float_of_ratio 1 3750.
Definition demo_100_samples : py_float := float_of_ratio 1 9600.
Definition demo_9_6_samples : py_float := float_of_ratio 1 100000.
Definition demo_0_96_samples : py_float := float_of_ratio 1 1000000.
Definition demo_0_7 : py_float := float_of_ratio 7 10.
Definition demo_threshold : py_float :=
  float_of_ratio 37792894935752074 100000000000000000000000.
Definition demo_huge : py_float := S754_finite false 1 1023.
Definition minus_one : py_float := SFopp (float_of_ratio 1 1).

Definition demo_product_9_6 : py_float := S754_finite false 5404319552844595 (-49).
Definition demo_product_0_96 : py_float := S754_finite false 8646911284551352 (-53).

(** Functions to run as a process: one that runs out of memory, one that
    fails to decode its input, one that raises a ModelError. *)
Definition demo_traceback : list string :=
  ["  File decode_model.py, in decode_model" +:+ nl].

Definition out_of_memory (w : @world expr) : outcome unit * @world expr :=
  (Raised (Exn "RuntimeError" "CUDA failure 2: out of memory") demo_traceback, w).

Definition undecodable (w : @world expr) : outcome unit * @world expr :=
  (Raised (Exn "UnicodeDecodeError"
             "'utf-8' codec can't decode byte 0xff in position 0: invalid start byte")
     demo_traceback, w).

Definition bad_layer (w : @world expr) : outcome unit * @world expr :=
  (Raised (Exn "ModelError" "layer 3: shape mismatch") demo_traceback, w).

Definition demo_started : @world expr := add_event (EvStart "decode_model") demo_world.

(** * Properties *)

(** Unfolds the monad operations that have become applied to values. *)
Ltac run_steps :=
  repeat (progress (unfold mret, M_ret, mbind, M_bind, lift, raise, emit,
                      result_bind, result_ret; cbv beta iota)).

Section Properties.
Context {F : Type} {ops : FloatOps F} {env : @Externals F}.

Local Abbreviation world := (@world F).
Local Abbreviation ndarray := (@ndarray F).
Local Abbreviation M := (@M F).

(** ** Running monadic code *)

Lemma run_bind {A B} (m : M A) (k : A → M B) (w : world) :
  (m ≫= k) w = match m w with
               | (Ok a, w') => k a w'
               | (Raise e, w') => (Raise e, w')
               end.
Proof. reflexivity. Qed.

Lemma run_ret {A} (a : A) (w : world) : (mret a : M A) w = (Ok a, w).
Proof. reflexivity. Qed.

Lemma run_lift {A} (r : result A) (w : world) : lift r w = (r, w).
Proof. reflexivity. Qed.

Lemma run_emit (e : event) (w : world) : emit e w = (Ok tt, add_event e w).
Proof. reflexivity. Qed.

(** ** The process decorator *)

(** The run of [wrapper]: start, the child's run and its message, and then
    either the exception of [q.get()], or join and the return or the raise. *)
Lemma wrapper_run {A} (name : string) (func : world → outcome A * world) (w : world) :
  wrapper name func w =
    (let '(o, w1) := func (add_event (EvStart name) w) in
     (wrapper_result o,
      match q_get_error A (sent o) with
      | Some _ => w1
      | None => add_event (EvJoin name) w1
      end)).
Proof.
  unfold wrapper. rewrite run_bind, run_emit, run_bind. unfold q_get, process_func.
  destruct (func (add_event (EvStart name) w)) as [[ret | e tb] w1];
    unfold wrapper_result; simpl sent.
  - destruct (q_get_error A (Some ret, None)); [reflexivity |].
    rewrite run_bind, run_emit. reflexivity.
  - destruct (q_get_error A (None, Some (ex_type e, ex_value e, str_join tb)));
      [reflexivity |].
    rewrite run_bind, run_emit, run_bind, run_lift.
    unfold reraised, subprocess_message.
    destruct (new_exception _ _); reflexivity.
Qed.

(** C5. When the message of the child is read back from the queue, the
    process is joined after that and before the wrapper returns or raises; a
    return value is handed back, and an exception raised by the function,
    when its class makes an instance of the one message string, is raised
    again in the caller with its own type and with the message
    [value (in subprocess)] followed by the text of the child's traceback. *)
Theorem processify_reraises_and_joins {A} (name : string)
    (func : world → outcome A * world) (w w1 : world) (o : outcome A) :
  func (add_event (EvStart name) w) = (o, w1) →
  q_get_error A (sent o) = None →
  match o with
  | Returned ret =>
      processify name func w = (Ok (Some ret), add_event (EvJoin name) w1)
  | Raised e tb =>
      let message := ex_value e +:+ " (in subprocess)" +:+ nl +:+ str_join tb in
      new_exception (ex_type e) message = Ok (Exn (ex_type e) message) →
      processify name func w =
        (Raise (Exn (ex_type e) message), add_event (EvJoin name) w1)
  end.
Proof.
  intros Hfunc Hget. unfold processify, wrapper.
  (* p.start(): the child runs process_func and puts its message *)
  rewrite run_bind, run_emit, run_bind. unfold q_get, process_func.
  rewrite Hfunc.
  destruct o as [ret | e tb]; simpl sent in Hget.
  - (* the function returned: error is None *)
    rewrite Hget. rewrite run_bind, run_emit. reflexivity.
  - (* the function raised: error is (ex_type, ex_value, tb_str) *)
    cbv zeta. intros Hnew. rewrite Hget.
    rewrite run_bind, run_emit, run_bind, run_lift, Hnew. reflexivity.
Qed.

(** ** Broadcasting *)

Lemma broadcast_dim_same (n : nat) : broadcast_dim n n = Some n.
Proof. unfold broadcast_dim. by rewrite decide_True. Qed.

Lemma broadcast_dim_one (n : nat) : broadcast_dim n 1 = Some n.
Proof.
  unfold broadcast_dim. destruct (decide (n = 1%nat)) as [-> | ?]; [done |].
  by rewrite decide_True.
Qed.

Lemma stretch_full {A} (l : list A) : stretch (length l) l = l.
Proof. by destruct l as [| x [| y l]]. Qed.

Lemma zip_with_replicate_r {A B C} (g : A → B → C) (l : list A) (b : B) :
  zip_with g l (replicate (length l) b) = map (λ a, g a b) l.
Proof. induction l as [| a l IH]; simpl; [done | by rewrite IH]. Qed.

(** An array and a single row of the same width: the row is applied to every
    row of the array. *)
Lemma np_binop_row (f : F → F → F) (a b : ndarray) (brow : list F) :
  well_formed a → rows b = [brow] → ncols b = ncols a → length brow = ncols a →
  np_binop f a b = Ok (NdArray (ncols a) (map (λ ra, zip_with f ra brow) (rows a))).
Proof.
  intros Ha Hb Hc Hlen. unfold np_binop, nrows.
  rewrite Hb, Hc. simpl length.
  rewrite broadcast_dim_one, broadcast_dim_same.
  rewrite stretch_full. simpl stretch. rewrite zip_with_replicate_r.
  do 2 f_equal. apply Forall_fmap_ext_1.
  eapply Forall_impl; [exact Ha |]. intros ra Hra; simpl in *.
  rewrite <- Hra at 1. rewrite stretch_full.
  rewrite <- Hlen. by rewrite stretch_full.
Qed.

Lemma zip_with_row_wf (f : F → F → F) (a : ndarray) (brow : list F) :
  well_formed a → length brow = ncols a →
  well_formed (NdArray (ncols a) (map (λ ra, zip_with f ra brow) (rows a))).
Proof.
  intros Ha Hlen. unfold well_formed; simpl.
  apply Forall_fmap. eapply Forall_impl; [exact Ha |].
  intros ra Hra; simpl in *. rewrite length_zip_with. lia.
Qed.

(** ** The feature normalizer *)

Lemma normed_noisy_rows (frames mean var : ndarray) (mrow vrow : list F) :
  well_formed frames →
  rows mean = [mrow] → ncols mean = ncols frames → length mrow = ncols frames →
  rows var = [vrow] → ncols var = ncols frames → length vrow = ncols frames →
  normed_noisy frames mean var =
    Ok (NdArray (ncols frames)
          (map (λ row, zip_with fdiv (zip_with fsub row mrow) vrow) (rows frames))).
Proof.
  intros Hf Hm Hmc Hml Hv Hvc Hvl. unfold normed_noisy, np_sub, np_div.
  rewrite (np_binop_row fsub frames mean mrow) by done.
  change (Ok ?a ≫= ?k) with (k a). cbv beta.
  rewrite (np_binop_row fdiv _ var vrow); simpl; try done.
  - by rewrite map_map.
  - by apply zip_with_row_wf.
Qed.

(** C7. With a well-formed frame matrix and mean and variance rows of its
    width, the normalizer succeeds, keeps the shape, and its entry (i, j) is
    (frames[i][j] - mean[j]) / variance[j]; the function is a plain function of
    its three arguments, outside the monad of effects. *)
Theorem normed_noisy_elementwise (frames global_mean global_var : ndarray) :
  well_formed frames → well_formed global_mean → well_formed global_var →
  shape global_mean = (1%nat, ncols frames) →
  shape global_var = (1%nat, ncols frames) →
  ∃ frames',
    normed_noisy frames global_mean global_var = Ok frames' ∧
    shape frames' = shape frames ∧
    ∀ i j x m v,
      entry frames i j = Some x →
      entry global_mean 0 j = Some m →
      entry global_var 0 j = Some v →
      entry frames' i j = Some (fdiv (fsub x m) v).
Proof.
  intros Hf Hm Hv Hsm Hsv.
  unfold shape, nrows in Hsm, Hsv.
  destruct global_mean as [mc [| mrow [| ? ?]]]; simplify_eq/=.
  destruct global_var as [vc [| vrow [| ? ?]]]; simplify_eq/=.
  unfold well_formed in Hm, Hv; simpl in Hm, Hv.
  rewrite Forall_singleton in Hm, Hv.
  eexists. split; [by apply (normed_noisy_rows _ _ _ mrow vrow) |].
  split; [unfold shape, nrows; simpl; by rewrite length_map |].
  intros i j x m v. unfold entry; simpl.
  rewrite list_lookup_fmap.
  destruct (rows frames !! i) as [row |]; simpl; [| done].
  intros Hx Hmj Hvj. rewrite !lookup_zip_with, Hx; simpl. rewrite Hmj; simpl.
  by rewrite Hvj.
Qed.



(** ** One chunk *)

Section Chunk.
Variables (src_wav_file : string) (wav_data : list F) (global_mean global_var : ndarray).
Variables (use_gpu : bool) (gpu_id : Z) (chunk_length total_chunks : Z).

Local Abbreviation body :=
  (denoise_wav_chunk src_wav_file wav_data global_mean global_var use_gpu gpu_id
     chunk_length total_chunks).

(** The run of the loop body on a chunk that is too short. *)
Lemma short_chunk_run (i : Z) (data_se : list (list F)) (w : world) :
  Z.of_nat (length (chunk wav_data chunk_length i)) < WL2 →
  body i data_se w =
    (Ok (data_se ++ [chunk wav_data chunk_length i]),
     snd (rmtree (tmp_names w (tmp_count w))
            (add_event (EvPrint (progress_line src_wav_file i total_chunks))
               (next_tmp w)))).
Proof.
  intros Hshort. unfold denoise_wav_chunk.
  rewrite run_bind. unfold mkdtemp at 1. unfold try_finally.
  rewrite run_bind, run_emit.
  fold (chunk wav_data chunk_length i).
  rewrite bool_decide_eq_true_2 by exact Hshort.
  reflexivity.
Qed.

(** C2. A chunk of fewer than 256 samples (WL2, half of the 512-sample window) is
    appended to the output as it is: the loop body names its temporary
    directory, prints the progress line and removes the directory; no analysis,
    normalization, worker or synthesis is involved, whatever they would do. *)
Theorem short_chunk_passes_through (i : Z) (data_se : list (list F)) (w : world) :
  Z.of_nat (length (chunk wav_data chunk_length i)) < 256 →
  body i data_se w =
    (Ok (data_se ++ [chunk wav_data chunk_length i]),
     snd (rmtree (tmp_names w (tmp_count w))
            (add_event (EvPrint (progress_line src_wav_file i total_chunks))
               (next_tmp w)))).
Proof.
  intros Hshort. unfold denoise_wav_chunk.
  (* tmp_dir = tempfile.mkdtemp(), then the body of the try statement *)
  rewrite run_bind. unfold mkdtemp at 1. unfold try_finally.
  rewrite run_bind, run_emit.
  fold (chunk wav_data chunk_length i).
  (* temp.shape[0] < WL2 holds, with WL2 = 512 // 2 = 256 *)
  assert (Htest : bool_decide (Z.of_nat (length (chunk wav_data chunk_length i)) < WL2)
                  = true).
  { apply bool_decide_eq_true_2. unfold WL2, WL. exact Hshort. }
  rewrite Htest.
  (* data_se.append(temp); continue; the finally clause removes tmp_dir *)
  reflexivity.
Qed.

(** The run of the loop body on a chunk that is long enough, up to the point
    where the mask has been read back. *)
Lemma long_chunk_run (i : Z) (data_se : list (list F)) (w w2 : world)
    (lps normed irm : ndarray) (vars : gmap string ndarray) :
  let temp := chunk wav_data chunk_length i in
  let tmp_dir := tmp_names w (tmp_count w) in
  ¬ Z.of_nat (length temp) < WL2 →
  wav2logspec temp (np_hamming WL) = Ok lps →
  normed_noisy lps global_mean global_var = Ok normed →
  decode_model_orig (os_path_join tmp_dir "noisy_normed_lps.scp") tmp_dir NFREQS
      use_gpu gpu_id
      (worker_start w (progress_line src_wav_file i total_chunks) normed
         (Z.of_nat (nrows lps) - 1))
    = (Returned tt, w2) →
  q_get_error unit (Some tt, None) = None →
  files w2 !! os_path_join tmp_dir "irm.mat" = Some (FMat vars) →
  vars !! "IRM" = Some irm →
  body i data_se w =
    (masked ← masked_lps lps irm;
     wave_recon ← logspec2wav masked temp (np_hamming WL) WL WL2;
     mret (data_se ++ [wave_recon]),
     snd (rmtree tmp_dir (add_event (EvJoin "decode_model") w2))).
Proof.
  intros temp tmp_dir Hlong Hlps Hnormed Hworker Hget Hfile Hkey.
  unfold denoise_wav_chunk.
  rewrite run_bind. unfold mkdtemp at 1. unfold try_finally.
  rewrite run_bind, run_emit.
  fold (chunk wav_data chunk_length i). fold temp. fold tmp_dir.
  rewrite bool_decide_eq_false_2 by exact Hlong.
  rewrite run_bind, run_lift, Hlps.
  rewrite run_bind, run_lift, Hnormed.
  rewrite run_bind. unfold write_htk, write_file at 1.
  rewrite run_bind. unfold write_file at 1.
  rewrite run_bind. unfold decode_model, processify. rewrite wrapper_run.
  unfold worker_start, progress_line in Hworker. fold tmp_dir in Hworker.
  rewrite Hworker. unfold wrapper_result. simpl sent. rewrite Hget.
  rewrite run_bind. unfold sio_loadmat. rewrite run_bind. unfold read_file.
  rewrite run_bind. unfold get_files at 1.
  change (files (add_event (EvJoin "decode_model") w2)) with (files w2).
  rewrite Hfile. unfold getitem. run_steps. rewrite Hkey. run_steps.
  destruct (masked_lps lps irm) as [masked | e]; [| reflexivity].
  run_steps.
  destruct (logspec2wav masked temp (np_hamming WL) WL WL2); reflexivity.
Qed.

(** An exception in the worker, when its message is read back, leaves the
    loop body as the exception that [wrapper] raises, after the temporary
    directory has been removed. *)
Lemma worker_exception_leaves_chunk (i : Z) (data_se : list (list F)) (w w2 : world)
    (lps normed : ndarray) (e : exn) (tb : list string) :
  let temp := chunk wav_data chunk_length i in
  let tmp_dir := tmp_names w (tmp_count w) in
  ¬ Z.of_nat (length temp) < WL2 →
  wav2logspec temp (np_hamming WL) = Ok lps →
  normed_noisy lps global_mean global_var = Ok normed →
  decode_model_orig (os_path_join tmp_dir "noisy_normed_lps.scp") tmp_dir NFREQS
      use_gpu gpu_id
      (worker_start w (progress_line src_wav_file i total_chunks) normed
         (Z.of_nat (nrows lps) - 1))
    = (Raised e tb, w2) →
  q_get_error unit (None, Some (ex_type e, ex_value e, str_join tb)) = None →
  body i data_se w =
    (Raise (reraised e tb),
     snd (rmtree tmp_dir (add_event (EvJoin "decode_model") w2))).
Proof.
  intros temp tmp_dir Hlong Hlps Hnormed Hworker Hget.
  unfold denoise_wav_chunk.
  rewrite run_bind. unfold mkdtemp at 1. unfold try_finally.
  rewrite run_bind, run_emit.
  fold (chunk wav_data chunk_length i). fold temp. fold tmp_dir.
  rewrite bool_decide_eq_false_2 by exact Hlong.
  rewrite run_bind, run_lift, Hlps.
  rewrite run_bind, run_lift, Hnormed.
  rewrite run_bind. unfold write_htk, write_file at 1.
  rewrite run_bind. unfold write_file at 1.
  rewrite run_bind. unfold decode_model, processify. rewrite wrapper_run.
  unfold worker_start, progress_line in Hworker. fold tmp_dir in Hworker.
  rewrite Hworker. unfold wrapper_result. simpl sent. rewrite Hget. reflexivity.
Qed.

End Chunk.



Lemma zip_with_stretch_rows (f : F → F → F) (c : nat) (la lb : list (list F)) :
  Forall (λ r, length r = c) la → Forall (λ r, length r = c) lb →
  zip_with (λ ra rb, zip_with f (stretch c ra) (stretch c rb)) la lb =
  zip_with (zip_with f) la lb.
Proof.
  intros Ha. revert lb. induction Ha as [| ra la Hra Ha IH]; intros lb Hb; [done |].
  destruct Hb as [| rb lb Hrb Hb]; [done |]. simpl.
  rewrite IH by done. f_equal.
  rewrite <- Hra at 1. rewrite stretch_full.
  rewrite <- Hrb at 1. by rewrite stretch_full.
Qed.

(** Two well-formed arrays of one shape: the operator is applied entry by
    entry. *)
Lemma np_binop_same_shape (f : F → F → F) (a b : ndarray) :
  well_formed a → well_formed b → shape b = shape a →
  np_binop f a b = Ok (NdArray (ncols a) (zip_with (zip_with f) (rows a) (rows b))).
Proof.
  intros Ha Hb Hs. unfold shape in Hs. injection Hs as Hr Hc.
  unfold np_binop. rewrite Hr, Hc, !broadcast_dim_same.
  unfold nrows in *. rewrite stretch_full. rewrite <- Hr at 1. rewrite stretch_full.
  rewrite zip_with_stretch_rows; [done | done |].
  unfold well_formed in Hb. by rewrite Hc in Hb.
Qed.

Lemma np_log_well_formed (a : ndarray) : well_formed a → well_formed (np_log a).
Proof.
  unfold well_formed, np_log; simpl. intros Ha. apply Forall_fmap.
  eapply Forall_impl; [exact Ha |]. intros r Hr; simpl. by rewrite length_map.
Qed.

Lemma np_log_shape (a : ndarray) : shape (np_log a) = shape a.
Proof. unfold shape, nrows, np_log; simpl. by rewrite length_map. Qed.

Lemma entry_np_log (a : ndarray) (i j : nat) :
  entry (np_log a) i j = flog <$> entry a i j.
Proof.
  unfold entry, np_log; simpl. rewrite list_lookup_fmap.
  destruct (rows a !! i) as [r |]; simpl; [| done]. by rewrite list_lookup_fmap.
Qed.

Lemma masked_lps_entries (lps irm : ndarray) :
  well_formed lps → well_formed irm → shape irm = shape lps →
  ∃ masked,
    masked_lps lps irm = Ok masked ∧ shape masked = shape lps ∧
    ∀ i j x m, entry lps i j = Some x → entry irm i j = Some m →
               entry masked i j = Some (fadd x (flog m)).
Proof.
  intros Hl Hi Hs. eexists. split.
  { unfold masked_lps, np_add. apply np_binop_same_shape; [done | |].
    - by apply np_log_well_formed.
    - by rewrite np_log_shape. }
  split.
  { unfold shape, nrows in *; simpl. injection Hs as Hr Hc.
    rewrite length_zip_with, !length_map. f_equal. lia. }
  intros i j x m Hx Hm.
  pose proof (entry_np_log irm i j) as Hlog. rewrite Hm in Hlog.
  unfold entry in *; simpl in *. rewrite lookup_zip_with.
  destruct (rows lps !! i) as [ra |]; simpl in *; [| done].
  destruct (map (map flog) (rows irm) !! i) as [rb |]; simpl in *; [| done].
  rewrite lookup_zip_with, Hx; simpl. by rewrite Hlog.
Qed.

Lemma stretch_length_l {A} (l : list A) (n r : nat) :
  broadcast_dim (length l) n = Some r → length (stretch r l) = r.
Proof.
  unfold broadcast_dim. intros Hr.
  destruct (decide (length l = n)); [injection Hr as <-; by rewrite stretch_full |].
  destruct (decide (length l = 1%nat)) as [Hone |].
  - injection Hr as <-. destruct l as [| x [| ? ?]]; try done.
    simpl. by rewrite length_replicate.
  - destruct (decide (n = 1%nat)); [| done].
    injection Hr as <-. by rewrite stretch_full.
Qed.

Lemma stretch_length_r {A} (l : list A) (m r : nat) :
  broadcast_dim m (length l) = Some r → length (stretch r l) = r.
Proof.
  unfold broadcast_dim. intros Hr.
  destruct (decide (m = length l)) as [-> |];
    [injection Hr as <-; by rewrite stretch_full |].
  destruct (decide (m = 1%nat)); [injection Hr as <-; by rewrite stretch_full |].
  destruct (decide (length l = 1%nat)); [| done].
  injection Hr as <-. destruct l as [| x [| ? ?]]; try done.
  simpl. by rewrite length_replicate.
Qed.

Lemma nrows_np_log (a : ndarray) : nrows (np_log a) = nrows a.
Proof. unfold nrows, np_log; simpl. by rewrite length_map. Qed.

(** The addition of the mask succeeds exactly when the two shapes can be
    broadcast together, and then has the broadcast shape. *)
Lemma masked_lps_broadcast (lps irm : ndarray) :
  match broadcast_dim (nrows lps) (nrows irm), broadcast_dim (ncols lps) (ncols irm) with
  | Some r, Some c =>
      ∃ masked, masked_lps lps irm = Ok masked ∧ shape masked = (r, c)
  | _, _ => ∃ msg, masked_lps lps irm = Raise (Exn "ValueError" msg)
  end.
Proof.
  unfold masked_lps, np_add, np_binop. rewrite nrows_np_log.
  change (ncols (np_log irm)) with (ncols irm).
  destruct (broadcast_dim (nrows lps) (nrows irm)) as [r |] eqn:Hr; [| eauto].
  destruct (broadcast_dim (ncols lps) (ncols irm)) as [c |]; [| eauto].
  eexists. split; [done |]. unfold shape, nrows at 1; simpl. f_equal.
  rewrite length_zip_with.
  rewrite (stretch_length_l (rows lps) (nrows irm)) by done.
  rewrite (stretch_length_r (map (map flog) (rows irm)) (nrows lps))
    by (by rewrite length_map).
  lia.
Qed.

Section Masking.
Variables (src_wav_file : string) (wav_data : list F) (global_mean global_var : ndarray).
Variables (use_gpu : bool) (gpu_id : Z) (chunk_length total_chunks : Z).

Local Abbreviation body :=
  (denoise_wav_chunk src_wav_file wav_data global_mean global_var use_gpu gpu_id
     chunk_length total_chunks).

(** C3. The caller does not compare the shape of the mask it reads back with
    the shape of the frame matrix.  The mask enters [lps + log(irm)] under
    NumPy's broadcasting: when an axis has two different extents neither of
    which is 1 the addition raises ValueError and the chunk fails with it;
    otherwise the addition raises nothing, also when the two shapes differ:
    the sum has the broadcast shape and is handed to the synthesis, and the
    chunk ends as the synthesis does on it. *)
Theorem mask_shape_is_only_broadcast (i : Z) (data_se : list (list F)) (w w2 : world)
    (lps normed irm : ndarray) (vars : gmap string ndarray) :
  let temp := chunk wav_data chunk_length i in
  let tmp_dir := tmp_names w (tmp_count w) in
  ¬ Z.of_nat (length temp) < WL2 →
  wav2logspec temp (np_hamming WL) = Ok lps →
  normed_noisy lps global_mean global_var = Ok normed →
  decode_model_orig (os_path_join tmp_dir "noisy_normed_lps.scp") tmp_dir NFREQS
      use_gpu gpu_id
      (worker_start w (progress_line src_wav_file i total_chunks) normed
         (Z.of_nat (nrows lps) - 1))
    = (Returned tt, w2) →
  q_get_error unit (Some tt, None) = None →
  files w2 !! os_path_join tmp_dir "irm.mat" = Some (FMat vars) →
  vars !! "IRM" = Some irm →
  match broadcast_dim (nrows lps) (nrows irm), broadcast_dim (ncols lps) (ncols irm) with
  | Some r, Some c =>
      ∃ masked,
        masked_lps lps irm = Ok masked ∧ shape masked = (r, c) ∧
        body i data_se w =
          (wave_recon ← logspec2wav masked temp (np_hamming WL) WL WL2;
           mret (data_se ++ [wave_recon]),
           snd (rmtree tmp_dir (add_event (EvJoin "decode_model") w2)))
  | _, _ =>
      ∃ msg,
        body i data_se w =
          (Raise (Exn "ValueError" msg),
           snd (rmtree tmp_dir (add_event (EvJoin "decode_model") w2)))
  end.
Proof.
  intros temp tmp_dir Hlong Hlps Hnormed Hworker Hget Hfile Hkey.
  pose proof (long_chunk_run src_wav_file wav_data global_mean global_var use_gpu
                gpu_id chunk_length total_chunks i data_se w w2 lps normed irm vars
                Hlong Hlps Hnormed Hworker Hget Hfile Hkey) as Hrun.
  pose proof (masked_lps_broadcast lps irm) as Hb.
  destruct (broadcast_dim (nrows lps) (nrows irm)) as [r |];
    [destruct (broadcast_dim (ncols lps) (ncols irm)) as [c |] |].
  - destruct Hb as (masked & Hm & Hc). exists masked. rewrite Hrun, Hm. done.
  - destruct Hb as (msg & Hm). exists msg. rewrite Hrun, Hm. done.
  - destruct Hb as (msg & Hm). exists msg. rewrite Hrun, Hm. done.
Qed.

End Masking.

Section Synthesis.
Variable K : @SpectralKernels F.
Hypothesis synthesis :
  ∀ lps wave window n_per_seg noverlap,
    logspec2wav lps wave window n_per_seg noverlap =
    logspec2wav_spec K lps wave window n_per_seg noverlap.
Hypothesis phase_kept : phase_preserving K.

Variables (src_wav_file : string) (wav_data : list F) (global_mean global_var : ndarray).
Variables (use_gpu : bool) (gpu_id : Z) (chunk_length total_chunks : Z).

Local Abbreviation body :=
  (denoise_wav_chunk src_wav_file wav_data global_mean global_var use_gpu gpu_id
     chunk_length total_chunks).


End Synthesis.



(** ** Chunk arithmetic *)

Lemma py_slice_nonneg {A} (l : list A) (b e : Z) :
  0 ≤ b ≤ e → py_slice l b e = take (Z.to_nat (e - b)) (drop (Z.to_nat b) l).
Proof.
  intros Hbe. unfold py_slice, slice_index.
  rewrite !(proj2 (Z.ltb_ge _ 0)) by lia.
  destruct (decide (Z.of_nat (length l) ≤ b)) as [Hout | Hin].
  - rewrite !Z.min_r by lia. rewrite Z.sub_diag, Nat2Z.id, drop_all. simpl.
    rewrite drop_ge by lia. by rewrite take_nil.
  - rewrite (Z.min_l b) by lia.
    destruct (decide (e ≤ Z.of_nat (length l))) as [He | He].
    + by rewrite Z.min_l by lia.
    + rewrite Z.min_r by lia.
      rewrite !take_ge; [done | |]; rewrite length_drop; lia.
Qed.

Lemma py_slice_all {A} (l : list A) : py_slice l 0 (Z.of_nat (length l) - 1 + 1) = l.
Proof.
  rewrite py_slice_nonneg by lia. simpl. rewrite drop_0. apply take_ge. lia.
Qed.

Lemma chunk_take_drop (wav_data : list F) (c i : Z) :
  0 < c → 1 ≤ i →
  chunk wav_data c i = take (Z.to_nat c) (drop (Z.to_nat ((i - 1) * c)) wav_data).
Proof.
  intros Hc Hi. unfold chunk. rewrite py_slice_nonneg by nia.
  do 2 f_equal. lia.
Qed.

Lemma total_chunks_of_pos (N c : Z) :
  0 < c → total_chunks_of N c = Ok (- ((- N) `div` c)).
Proof.
  intros Hc. unfold total_chunks_of. rewrite decide_False by lia. f_equal.
  destruct c as [| p | p]; try lia.
  unfold Qceiling, Qfloor, Qdiv, Qinv, Qmult, Qopp, inject_Z. simpl.
  by rewrite Z.mul_1_r.
Qed.

Lemma total_chunks_of_empty (c : Z) : c ≠ 0 → total_chunks_of 0 c = Ok 0.
Proof.
  intros Hc. unfold total_chunks_of. by rewrite decide_False.
Qed.

Lemma total_chunks_of_bounds (N c k : Z) :
  0 < c → total_chunks_of N c = Ok k → (k - 1) * c < N ≤ k * c.
Proof.
  intros Hc. rewrite total_chunks_of_pos by done. intros [= <-].
  pose proof (Z.div_mod (- N) c ltac:(lia)) as Hdm.
  pose proof (Z.mod_pos_bound (- N) c Hc) as Hm.
  nia.
Qed.

Lemma py_range_from_1 (k : Z) :
  py_range 1 (k + 1) = map (λ n, Z.of_nat (S n)) (seq 0 (Z.to_nat k)).
Proof.
  unfold py_range. replace (k + 1 - 1) with k by lia.
  apply map_ext. intros n. lia.
Qed.

Lemma concat_chunks_take (wav_data : list F) (c : Z) (n : nat) :
  0 < c →
  concat (map (λ m, chunk wav_data c (Z.of_nat (S m))) (seq 0 n)) =
  take (n * Z.to_nat c) wav_data.
Proof.
  intros Hc. induction n as [| n IH]; [done |].
  rewrite seq_S, map_app, concat_app, IH. simpl. rewrite app_nil_r.
  rewrite chunk_take_drop by lia.
  replace (Z.to_nat ((Z.of_nat (S n) - 1) * c)) with (n * Z.to_nat c)%nat by nia.
  rewrite take_take_drop. f_equal. lia.
Qed.

Lemma concat_chunks (wav_data : list F) (c k : Z) :
  0 < c → Z.of_nat (length wav_data) ≤ k * c →
  concat (map (chunk wav_data c) (py_range 1 (k + 1))) = wav_data.
Proof.
  intros Hc Hk. rewrite py_range_from_1, map_map.
  rewrite concat_chunks_take by done. apply take_ge. nia.
Qed.

Lemma chunk_length_full (wav_data : list F) (c k i : Z) :
  0 < c → (k - 1) * c < Z.of_nat (length wav_data) → 1 ≤ i < k →
  Z.of_nat (length (chunk wav_data c i)) = c.
Proof.
  intros Hc Hk Hi. rewrite chunk_take_drop by lia.
  rewrite length_take, length_drop. nia.
Qed.

Lemma chunk_lookup (wav_data : list F) (c i j : Z) :
  0 < c → 1 ≤ i → 0 ≤ j < c →
  chunk wav_data c i !! Z.to_nat j = wav_data !! Z.to_nat ((i - 1) * c + j).
Proof.
  intros Hc Hi Hj. rewrite chunk_take_drop by lia.
  rewrite lookup_take_lt by lia. rewrite lookup_drop. f_equal. nia.
Qed.

(** Truncation gives 0 exactly below 1, for a nonnegative [x]. *)
Lemma truncate_zero_iff (x : Q) : (0 <= x)%Q → truncate x = 0 ↔ (x < 1)%Q.
Proof.
  destruct x as [n d]. unfold truncate, Qle, Qlt; simpl. intros Hn.
  rewrite Z.mul_1_r in *.
  split.
  - intros Hq. destruct (decide (n < Z.pos d)) as [? | Hge]; [lia |].
    pose proof (Z.quot_le_mono (Z.pos d) n (Z.pos d) ltac:(lia) ltac:(lia)) as Hmono.
    rewrite Z.quot_same in Hmono by lia. lia.
  - intros Hlt. apply Z.quot_small. lia.
Qed.

Lemma truncate_pos (x : Q) : (1 <= x)%Q → 1 ≤ truncate x.
Proof.
  destruct x as [n d]. unfold truncate, Qle; simpl. intros Hn.
  rewrite Z.mul_1_l in Hn.
  pose proof (Z.quot_le_mono (Z.pos d) n (Z.pos d) ltac:(lia) ltac:(lia)) as Hmono.
  rewrite Z.quot_same in Hmono by lia. lia.
Qed.

(** ** Floats: [int] and the sign of a product *)

Lemma py_int_value (p : py_float) (x : Q) :
  float_value p = Some x → py_int p = Ok (truncate x).
Proof. destruct p; simpl; intros [= <-]; reflexivity. Qed.

Lemma py_int_no_value (p : py_float) :
  float_value p = None → ∃ e, py_int p = Raise e.
Proof. destruct p; simpl; intros Hv; try done; eauto. Qed.

Lemma binary_round_aux_sign (s : bool) (m e : Z) (l : location) :
  match binary_round_aux prec emax s m e l with
  | S754_zero s' | S754_infinity s' | S754_finite s' _ _ => s' = s
  | S754_nan => True
  end.
Proof.
  unfold binary_round_aux.
  destruct (shr_fexp prec emax m e l) as [mrs' e'].
  destruct (shr_fexp prec emax _ e' loc_Exact) as [mrs'' e''].
  destruct (shr_m mrs''); [done | | done].
  by destruct (Z.leb e'' (Z.sub emax prec)).
Qed.

Lemma float_of_int_sign (z : Z) (r : py_float) :
  0 ≤ z → float_of_int z = Ok r → sign_plus r.
Proof.
  intros Hz. unfold float_of_int, binary_normalize.
  destruct z as [| m | m]; [by intros [= <-] | | lia].
  unfold binary_round.
  destruct (shl_align m 0 _) as [mz ez].
  pose proof (binary_round_aux_sign false (Z.pos mz) ez loc_Exact) as Hs.
  destruct (binary_round_aux prec emax false (Z.pos mz) ez loc_Exact);
    intros [= <-]; done.
Qed.

Lemma SFmul_sign (x y : py_float) :
  sign_plus x → sign_plus y → sign_plus (SFmul prec emax x y).
Proof.
  destruct x as [sx | sx | | sx mx ex], y as [sy | sy | | sy my ey];
    simpl; try done; try (by intros -> ->).
  intros -> ->.
  apply (binary_round_aux_sign false (Z.pos (mx * my)) (ex + ey) loc_Exact).
Qed.

Lemma float_positive_sign (x : py_float) : float_positive x → sign_plus x.
Proof. unfold float_positive. by destruct x as [[] | [] | | [] m e]. Qed.

Lemma sign_plus_value (x : py_float) (q : Q) :
  sign_plus x → float_value x = Some q → (0 <= q)%Q.
Proof.
  destruct x as [s | s | | s m e]; simpl; try done.
  - by intros _ [= <-].
  - intros -> [= <-]. destruct e as [| e | d]; unfold Qle; simpl; lia.
Qed.

(** The product under [int] is not negative when [truncate_minutes] is
    positive and the rate is not negative. *)
Lemma chunk_length_product_sign (truncate_minutes : py_float) (rate : Z) (p : py_float) :
  float_positive truncate_minutes → 0 ≤ rate →
  chunk_length_product truncate_minutes rate = Ok p → sign_plus p.
Proof.
  intros HT Hrate. unfold chunk_length_product, float_mul_int.
  destruct (float_of_int rate) as [r |] eqn:Hr; [| done].
  change (Ok r ≫= ?k) with (k r). cbv beta.
  change (Ok ?a ≫= ?k) with (k a). cbv beta.
  destruct (float_of_int 60) as [sixty |] eqn:H60; [| done].
  change (Ok sixty ≫= ?k) with (k sixty). cbv beta. intros [= <-].
  apply SFmul_sign.
  - apply SFmul_sign; [by apply float_positive_sign |].
    by apply (float_of_int_sign rate).
  - by apply (float_of_int_sign 60).
Qed.



(** ** The loop body as a function of the chunk *)

Lemma os_path_join_inj (d a b : string) :
  String.prefix "/" a = false → String.prefix "/" b = false →
  os_path_join d a = os_path_join d b → a = b.
Proof.
  intros Ha Hb. unfold os_path_join. rewrite Ha, Hb.
  destruct (decide (d = "")); [done |].
  destruct (ends_with_slash d); intros Heq.
  - by apply (inj (String.app d)) in Heq.
  - apply (inj (String.app d)) in Heq. by apply (inj (String.app "/")) in Heq.
Qed.

Section Refinement.
Variable estimate : ndarray → bool → Z → outcome ndarray.
Hypothesis decoder :
  ∀ scp_fn out_dir n_freqs use_gpu gpu_id w,
    decode_model_orig scp_fn out_dir n_freqs use_gpu gpu_id w =
    decode_model_spec estimate scp_fn out_dir n_freqs use_gpu gpu_id w.

Variables (src_wav_file : string) (wav_data : list F) (global_mean global_var : ndarray).
Variables (use_gpu : bool) (gpu_id : Z) (chunk_length total_chunks : Z).

Local Abbreviation body :=
  (denoise_wav_chunk src_wav_file wav_data global_mean global_var use_gpu gpu_id
     chunk_length total_chunks).

Lemma chunk_refines_enhance (i : Z) (data_se : list (list F)) (w : world) :
  ∃ w',
    body i data_se w =
      (out ← enhance_chunk estimate global_mean global_var use_gpu gpu_id
               (chunk wav_data chunk_length i);
       mret (data_se ++ [out]), w').
Proof.
  unfold enhance_chunk.
  destruct (bool_decide (Z.of_nat (length (chunk wav_data chunk_length i)) < WL2))
    eqn:Hlen.
  { apply bool_decide_eq_true_1 in Hlen. eexists.
    by apply short_chunk_run. }
  apply bool_decide_eq_false_1 in Hlen.
  set (temp := chunk wav_data chunk_length i) in *.
  set (tmp_dir := tmp_names w (tmp_count w)).
  assert (Hbody : ∀ r w1,
    (noisy_htkdata ← lift (wav2logspec temp (np_hamming WL));
     normed ← lift (normed_noisy noisy_htkdata global_mean global_var);
     write_htk (os_path_join tmp_dir "noisy_normed_lps.htk") normed SR 9;;
     write_file (os_path_join tmp_dir "noisy_normed_lps.scp")
       (FScp "irm" (os_path_join tmp_dir "noisy_normed_lps.htk") 0
          (Z.of_nat (nrows noisy_htkdata) - 1));;
     decode_model (os_path_join tmp_dir "noisy_normed_lps.scp") tmp_dir NFREQS
       use_gpu gpu_id;;
     vars ← sio_loadmat (os_path_join tmp_dir "irm.mat");
     irm ← getitem vars "IRM";
     masked ← lift (masked_lps noisy_htkdata irm);
     wave_recon ← lift (logspec2wav masked temp (np_hamming WL) WL WL2);
     mret (data_se ++ [wave_recon]))
      (add_event (EvPrint (progress_line src_wav_file i total_chunks)) (next_tmp w))
      = (r, w1) →
    body i data_se w = (r, snd (rmtree tmp_dir w1))).
  { intros r w1 Hrun. unfold denoise_wav_chunk.
    rewrite run_bind. unfold mkdtemp at 1. unfold try_finally.
    rewrite run_bind, run_emit.
    fold (chunk wav_data chunk_length i). fold temp. fold tmp_dir.
    rewrite bool_decide_eq_false_2 by exact Hlen.
    unfold progress_line in Hrun. by rewrite Hrun. }
  destruct (wav2logspec temp (np_hamming WL)) as [lps | e] eqn:Hlps.
  2: { eexists. apply Hbody. reflexivity. }
  change (Ok lps ≫= ?k) with (k lps). cbv beta.
  destruct (normed_noisy lps global_mean global_var) as [normed | e] eqn:Hnormed.
  2: { eexists. apply Hbody. rewrite run_bind, run_lift.
       rewrite run_bind, run_lift, Hnormed. reflexivity. }
  pose (w0 := worker_start w (progress_line src_wav_file i total_chunks) normed
                (Z.of_nat (nrows lps) - 1)).
  assert (Hscp : files w0 !! os_path_join tmp_dir "noisy_normed_lps.scp" =
                 Some (FScp "irm" (os_path_join tmp_dir "noisy_normed_lps.htk") 0
                         (Z.of_nat (nrows lps) - 1))).
  { unfold w0, worker_start. fold tmp_dir. simpl files. apply lookup_insert_eq. }
  assert (Hhtk : files w0 !! os_path_join tmp_dir "noisy_normed_lps.htk" =
                 Some (FHtk normed SR 9)).
  { unfold w0, worker_start. fold tmp_dir. simpl files.
    rewrite lookup_insert_ne; [apply lookup_insert_eq |].
    intros Heq. by apply os_path_join_inj in Heq. }
  pose proof (decoder (os_path_join tmp_dir "noisy_normed_lps.scp") tmp_dir NFREQS
                use_gpu gpu_id w0) as Hdec.
  unfold decode_model_spec in Hdec. rewrite Hscp, Hhtk in Hdec.
  change (Ok normed ≫= ?k) with (k normed). cbv beta zeta.
  set (frames := NdArray (ncols normed)
                   (py_slice (rows normed) 0 (Z.of_nat (nrows lps) - 1 + 1))) in *.
  assert (Hraise : ∀ o w1 e,
    decode_model_orig (os_path_join tmp_dir "noisy_normed_lps.scp") tmp_dir NFREQS
      use_gpu gpu_id w0 = (o, w1) →
    wrapper_result o = Raise e →
    ∃ w', body i data_se w = (Raise e, w')).
  { intros o w1 e Ho He. eexists. apply Hbody. rewrite run_bind, run_lift.
    rewrite run_bind, run_lift, Hnormed.
    rewrite run_bind. unfold write_htk, write_file at 1.
    rewrite run_bind. unfold write_file at 1.
    rewrite run_bind. unfold decode_model, processify. rewrite wrapper_run.
    fold tmp_dir in w0. unfold progress_line.
    change (add_event (EvStart "decode_model") _) with w0.
    rewrite Ho, He. reflexivity. }
  unfold mask_of_outcome.
  destruct (estimate frames use_gpu gpu_id) as [mask | e tb] eqn:Hest;
    simpl decoder_outcome; simpl sent.
  - destruct (q_get_error unit (Some tt, None)) as [e |] eqn:Hget.
    { apply (Hraise _ _ e Hdec). unfold wrapper_result. simpl sent. by rewrite Hget. }
    eexists.
    rewrite (long_chunk_run src_wav_file wav_data global_mean global_var use_gpu gpu_id
               chunk_length total_chunks i data_se w _ lps normed mask
               {[ "IRM" := mask ]} Hlen Hlps Hnormed Hdec Hget
               (lookup_insert_eq _ _ _) (lookup_singleton_eq _ _)).
    fold temp. fold tmp_dir.
    change (Ok mask ≫= ?k) with (k mask). cbv beta.
    destruct (masked_lps lps mask) as [masked |]; [| reflexivity].
    change (Ok masked ≫= ?k) with (k masked). cbv beta.
    destruct (logspec2wav masked temp (np_hamming WL) WL WL2); reflexivity.
  - destruct (q_get_error unit (None, Some (ex_type e, ex_value e, str_join tb)))
      as [e' |] eqn:Hget.
    + apply (Hraise _ _ e' Hdec). unfold wrapper_result. simpl sent. by rewrite Hget.
    + apply (Hraise _ _ (reraised e tb) Hdec). unfold wrapper_result. simpl sent.
      by rewrite Hget.
Qed.




Lemma loop_refines_mapM (xs : list Z) (data_se : list (list F)) (w : world) :
  ∃ w',
    for_each xs body data_se w =
      (outs ← mapM (λ i, enhance_chunk estimate global_mean global_var use_gpu gpu_id
                           (chunk wav_data chunk_length i)) xs;
       mret (data_se ++ outs), w').
Proof.
  revert data_se w. induction xs as [| i xs IH]; intros data_se w.
  { exists w. simpl. by rewrite app_nil_r. }
  simpl for_each. rewrite run_bind.
  destruct (chunk_refines_enhance i data_se w) as [w1 ->].
  simpl mapM.
  destruct (enhance_chunk estimate global_mean global_var use_gpu gpu_id
              (chunk wav_data chunk_length i)) as [out | e]; [| by exists w1].
  run_steps.
  destruct (IH (data_se ++ [out]) w1) as [w' ->]. exists w'.
  run_steps.
  destruct (mapM _ xs) as [outs | e]; [| done].
  by rewrite <- app_assoc.
Qed.

End Refinement.

(** The loop over a list that is split in two. *)
Lemma for_each_app {A S} (xs ys : list A) (body : A → S → M S) (s : S) (w : world) :
  for_each (xs ++ ys) body s w = (s' ← for_each xs body s; for_each ys body s') w.
Proof.
  revert s w. induction xs as [| x xs IH]; intros s w; [done |].
  simpl. rewrite !run_bind. destruct (body x s w) as [[s1 | e] w1]; [| done].
  rewrite IH. by rewrite run_bind.
Qed.

(** ** The whole file *)

Section File.
Variables (src_wav_file dest_wav_file : string) (global_mean global_var : ndarray).
Variables (use_gpu : bool) (gpu_id : Z) (truncate_minutes : py_float).

Local Abbreviation run :=
  (denoise_wav src_wav_file dest_wav_file global_mean global_var use_gpu gpu_id
     truncate_minutes).

(** The run up to the chunk length, when the file is read and normalized. *)
Lemma denoise_wav_loaded (w : world) (f : file) (y wav_data : list F) (rate : Z) :
  files w !! src_wav_file = Some f →
  librosa_load f = Ok (y, rate) →
  peak_normalization (map (λ s, fmul s (f_of_Z (2 ^ 15))) y) = Ok wav_data →
  run w =
    (chunk_length ← lift (chunk_length_of truncate_minutes rate);
     total_chunks ← lift (total_chunks_of (Z.of_nat (length wav_data)) chunk_length);
     data_se ← for_each (py_range 1 (total_chunks + 1))
                 (denoise_wav_chunk src_wav_file wav_data global_mean global_var
                    use_gpu gpu_id chunk_length total_chunks) [];
     data_se ← lift (np_concatenate (map (map astype_int16) data_se));
     wav_io_write dest_wav_file SR data_se) w.
Proof.
  intros Hf Hload Hpeak. unfold denoise_wav.
  rewrite run_bind. unfold read_file. rewrite run_bind. unfold get_files at 1.
  rewrite Hf, run_ret. rewrite run_bind, run_lift, Hload.
  rewrite run_bind, run_lift, Hpeak. reflexivity.
Qed.

(** The run up to the loop, when the chunk length is computed. *)
Lemma denoise_wav_after_load (w : world) (f : file) (y wav_data : list F)
    (rate chunk_length : Z) :
  files w !! src_wav_file = Some f →
  librosa_load f = Ok (y, rate) →
  peak_normalization (map (λ s, fmul s (f_of_Z (2 ^ 15))) y) = Ok wav_data →
  chunk_length_of truncate_minutes rate = Ok chunk_length →
  run w =
    (total_chunks ← lift (total_chunks_of (Z.of_nat (length wav_data)) chunk_length);
     data_se ← for_each (py_range 1 (total_chunks + 1))
                 (denoise_wav_chunk src_wav_file wav_data global_mean global_var
                    use_gpu gpu_id chunk_length total_chunks) [];
     data_se ← lift (np_concatenate (map (map astype_int16) data_se));
     wav_io_write dest_wav_file SR data_se) w.
Proof.
  intros Hf Hload Hpeak Hc.
  rewrite (denoise_wav_loaded w f y wav_data rate Hf Hload Hpeak).
  rewrite run_bind, run_lift, Hc. reflexivity.
Qed.

(** An exception in a chunk, after the chunks before it went through, ends
    the run: nothing is written to the destination. *)
Lemma chunk_failure_aborts_file (w w1 w2 : world) (f : file) (y wav_data : list F)
    (rate chunk_length k i : Z) (before after : list Z) (data_se : list (list F))
    (e : exn) :
  let body := denoise_wav_chunk src_wav_file wav_data global_mean global_var
                use_gpu gpu_id chunk_length k in
  files w !! src_wav_file = Some f →
  librosa_load f = Ok (y, rate) →
  peak_normalization (map (λ s, fmul s (f_of_Z (2 ^ 15))) y) = Ok wav_data →
  chunk_length_of truncate_minutes rate = Ok chunk_length →
  total_chunks_of (Z.of_nat (length wav_data)) chunk_length = Ok k →
  py_range 1 (k + 1) = before ++ i :: after →
  for_each before body [] w = (Ok data_se, w1) →
  body i data_se w1 = (Raise e, w2) →
  run w = (Raise e, w2).
Proof.
  intros body Hf Hload Hpeak Hc Hk Hrange Hbefore Hfail.
  rewrite (denoise_wav_after_load w f y wav_data rate chunk_length Hf Hload Hpeak Hc).
  rewrite run_bind, run_lift, Hk. rewrite run_bind, Hrange.
  fold body. rewrite for_each_app, run_bind, Hbefore.
  simpl for_each. by rewrite run_bind, Hfail.
Qed.

(** C9. With a positive [truncate_minutes] and a sample rate that is not
    negative, let the product be the float [truncate_minutes * rate * 60] as
    the source computes it.  When it is below 1, [int] truncates the chunk
    length to 0 and the division under [math.ceil] raises ZeroDivisionError,
    before any chunk is touched; when it is a number from 1 on, the chunk
    length is at least 1 and the chunk count is defined; when it is no number
    (inf, nan), [int] raises. *)
Theorem tiny_truncate_minutes_divides_by_zero (w : world) (f : file)
    (y wav_data : list F) (rate : Z) (product : py_float) :
  files w !! src_wav_file = Some f →
  librosa_load f = Ok (y, rate) →
  peak_normalization (map (λ s, fmul s (f_of_Z (2 ^ 15))) y) = Ok wav_data →
  float_positive truncate_minutes → 0 ≤ rate →
  chunk_length_product truncate_minutes rate = Ok product →
  match float_value product with
  | Some x =>
      match Qlt_le_dec x 1 with
      | left _ =>
          chunk_length_of truncate_minutes rate = Ok 0 ∧
          run w = (Raise (Exn "ZeroDivisionError" "division by zero"), w)
      | right _ =>
          ∃ chunk_length,
            chunk_length_of truncate_minutes rate = Ok chunk_length ∧
            1 ≤ chunk_length ∧
            ∃ k, total_chunks_of (Z.of_nat (length wav_data)) chunk_length = Ok k
      end
  | None =>
      ∃ e, chunk_length_of truncate_minutes rate = Raise e ∧ run w = (Raise e, w)
  end.
Proof.
  intros Hf Hload Hpeak HT Hrate Hproduct.
  pose proof (chunk_length_product_sign truncate_minutes rate product HT Hrate
                Hproduct) as Hsign.
  assert (Hlen : chunk_length_of truncate_minutes rate = py_int product).
  { unfold chunk_length_of. by rewrite Hproduct. }
  destruct (float_value product) as [x |] eqn:Hvalue.
  - pose proof (sign_plus_value product x Hsign Hvalue) as Hx.
    rewrite (py_int_value product x Hvalue) in Hlen.
    destruct (Qlt_le_dec x 1) as [Hlt | Hge].
    + assert (Hc : truncate x = 0) by by apply truncate_zero_iff.
      rewrite Hc in Hlen. split; [done |].
      rewrite (denoise_wav_after_load w f y wav_data rate 0 Hf Hload Hpeak Hlen).
      reflexivity.
    + pose proof (truncate_pos x Hge) as Hc.
      exists (truncate x). split; [done |]. split; [done |].
      eexists. apply total_chunks_of_pos. lia.
  - destruct (py_int_no_value product Hvalue) as [e He].
    exists e. rewrite Hlen. split; [done |].
    rewrite (denoise_wav_loaded w f y wav_data rate Hf Hload Hpeak).
    by rewrite run_bind, run_lift, Hlen, He.
Qed.

(** C10. When the peak-normalized waveform has no samples (and the chunk
    length is not 0), the chunk count is 0, the loop body never runs, and
    [np.concatenate] raises ValueError on the empty list: the run ends with
    that exception in an unchanged world, without an output file. *)
Theorem empty_waveform_raises (w : world) (f : file) (y : list F)
    (rate chunk_length : Z) :
  files w !! src_wav_file = Some f →
  librosa_load f = Ok (y, rate) →
  peak_normalization (map (λ s, fmul s (f_of_Z (2 ^ 15))) y) = Ok [] →
  chunk_length_of truncate_minutes rate = Ok chunk_length →
  chunk_length ≠ 0 →
  total_chunks_of 0 chunk_length = Ok 0 ∧
  run w = (Raise (Exn "ValueError" "need at least one array to concatenate"), w).
Proof.
  intros Hf Hload Hpeak Hlen Hc.
  split; [by apply total_chunks_of_empty |].
  rewrite (denoise_wav_after_load w f y [] rate chunk_length Hf Hload Hpeak Hlen).
  simpl length. change (Z.of_nat 0) with 0.
  rewrite run_bind, run_lift, total_chunks_of_empty by done.
  reflexivity.
Qed.

End File.



(** ** Determinism *)

Section Determinism.
Variable estimate : ndarray → bool → Z → outcome ndarray.
Hypothesis decoder :
  ∀ scp_fn out_dir n_freqs use_gpu gpu_id w,
    decode_model_orig scp_fn out_dir n_freqs use_gpu gpu_id w =
    decode_model_spec estimate scp_fn out_dir n_freqs use_gpu gpu_id w.

Variables (src_wav_file dest_wav_file : string) (global_mean global_var : ndarray).
Variables (use_gpu : bool) (gpu_id : Z) (truncate_minutes : py_float).

Local Abbreviation run :=
  (denoise_wav src_wav_file dest_wav_file global_mean global_var use_gpu gpu_id
     truncate_minutes).

(** The run returns what [enhance_wav] computes from the content of the source
    file, and leaves it at the destination. *)
Lemma denoise_wav_refines (w : world) :
  match enhance_wav estimate src_wav_file global_mean global_var use_gpu gpu_id
          truncate_minutes (files w !! src_wav_file) with
  | Ok data =>
      ∃ w', run w = (Ok tt, w') ∧ files w' !! dest_wav_file = Some (FWav SR [data])
  | Raise e => ∃ w', run w = (Raise e, w')
  end.
Proof.
  unfold enhance_wav.
  destruct (files w !! src_wav_file) as [f |] eqn:Hf.
  2: { exists w. unfold denoise_wav, read_file.
       rewrite run_bind, run_bind. unfold get_files at 1. by rewrite Hf. }
  run_steps.
  destruct (librosa_load f) as [[y rate] | e] eqn:Hload.
  2: { exists w. unfold denoise_wav, read_file.
       rewrite run_bind, run_bind. unfold get_files at 1. rewrite Hf, run_ret.
       by rewrite run_bind, run_lift, Hload. }
  destruct (peak_normalization (map (λ s, fmul s (f_of_Z (2 ^ 15))) y))
    as [wav_data | e] eqn:Hpeak.
  2: { exists w. unfold denoise_wav, read_file.
       rewrite run_bind, run_bind. unfold get_files at 1. rewrite Hf, run_ret.
       rewrite run_bind, run_lift, Hload.
       by rewrite run_bind, run_lift, Hpeak. }
  rewrite (denoise_wav_loaded src_wav_file dest_wav_file global_mean global_var
             use_gpu gpu_id truncate_minutes w f y wav_data rate Hf Hload Hpeak).
  rewrite run_bind, run_lift.
  destruct (chunk_length_of truncate_minutes rate) as [c | e]; [| by exists w].
  rewrite run_bind, run_lift.
  destruct (total_chunks_of _ _) as [k | e]; [| by exists w].
  rewrite run_bind.
  destruct (loop_refines_mapM estimate decoder src_wav_file wav_data global_mean
              global_var use_gpu gpu_id c k (py_range 1 (k + 1)) [] w) as [w1 ->].
  destruct (mapM _ _) as [outs | e]; [| by exists w1].
  run_steps. simpl app.
  destruct (np_concatenate (map (map astype_int16) outs)) as [data | e];
    [| by exists w1].
  eexists. split; [reflexivity |]. simpl files. apply lookup_insert_eq.
Qed.

(** C8. Two runs on worlds that agree on the content of the source file, and
    may differ in everything else (the names the operating system hands out
    for the temporary directories, the other files, what has been printed),
    return alike and leave the same samples at the destination, for any mask
    model that is a function of the frames and the device options. *)
Theorem denoise_wav_deterministic (w1 w2 : world) :
  files w1 !! src_wav_file = files w2 !! src_wav_file →
  written dest_wav_file (run w1) = written dest_wav_file (run w2).
Proof.
  intros Hsrc.
  pose proof (denoise_wav_refines w1) as H1.
  pose proof (denoise_wav_refines w2) as H2.
  rewrite <- Hsrc in H2.
  destruct (enhance_wav _ _ _ _ _ _ _ _) as [data | e].
  - destruct H1 as (w1' & -> & Hd1), H2 as (w2' & -> & Hd2).
    unfold written. by rewrite Hd1, Hd2.
  - by destruct H1 as (w1' & ->), H2 as (w2' & ->).
Qed.

End Determinism.



(** ** Chunk boundaries and the length of the output *)

Lemma elem_of_py_range (a b i : Z) : i ∈ py_range a b → a ≤ i < b.
Proof.
  unfold py_range. intros Hi. apply list_elem_of_fmap in Hi as (n & -> & Hn).
  apply elem_of_seq in Hn. lia.
Qed.

Lemma loop_lengths (src_wav_file : string) (wav_data : list F)
    (global_mean global_var : ndarray) (use_gpu : bool) (gpu_id : Z)
    (chunk_length total_chunks : Z) (xs : list Z) :
  (∀ i data_se w,
     i ∈ xs →
     ∃ out w',
       denoise_wav_chunk src_wav_file wav_data global_mean global_var use_gpu gpu_id
         chunk_length total_chunks i data_se w = (Ok (data_se ++ [out]), w') ∧
       length out = length (chunk wav_data chunk_length i)) →
  ∀ data_se w,
    ∃ outs w',
      for_each xs
        (denoise_wav_chunk src_wav_file wav_data global_mean global_var use_gpu
           gpu_id chunk_length total_chunks) data_se w = (Ok (data_se ++ outs), w') ∧
      Forall2 (λ out i, length out = length (chunk wav_data chunk_length i)) outs xs.
Proof.
  induction xs as [| i xs IH]; intros Hbody data_se w.
  { exists [], w. rewrite app_nil_r. by split. }
  destruct (Hbody i data_se w ltac:(left)) as (out & w1 & Hrun & Hlen).
  destruct (IH (λ j d w0 Hj, Hbody j d w0 (list_elem_of_further _ _ _ Hj))
              (data_se ++ [out]) w1) as (outs & w' & Hloop & Hall).
  exists (out :: outs), w'. split; [| by constructor].
  simpl for_each. rewrite run_bind, Hrun, Hloop. by rewrite <- app_assoc.
Qed.

Lemma concat_lengths {A B C} (g : A → B) (outs : list (list A)) (ins : list (list C)) :
  Forall2 (λ out inp, length out = length inp) outs ins →
  length (concat (map (map g) outs)) = length (concat ins).
Proof.
  induction 1 as [| out inp outs ins Hlen _ IH]; [done |].
  simpl. rewrite !length_app, length_map. lia.
Qed.

Section Chunking.
Variables (src_wav_file dest_wav_file : string) (global_mean global_var : ndarray).
Variables (use_gpu : bool) (gpu_id : Z) (truncate_minutes : py_float).


End Chunking.



(** ** The batch *)

(** An exception of [denoise_wav] is reported with [utils.error] and raised
    again. *)
Lemma denoise_channel_reraises (tempoutdir : string) (global_mean global_var : ndarray)
    (kw : kwargs) (ch_file : string) (w w' : world) (e : exn) :
  denoise_wav ch_file (dest_ch_file tempoutdir ch_file) global_mean global_var
    (use_gpu kw) (gpu_id kw) (truncate_minutes kw) w = (Raise e, w') →
  denoise_channel tempoutdir global_mean global_var kw ch_file w =
    (Raise e, add_event (EvError (problem_message ch_file)) w').
Proof.
  intros Hrun. unfold denoise_channel, try_except.
  rewrite run_bind, Hrun. reflexivity.
Qed.

(** C1. In a batch that starts with the files A and B, when A is processed to
    the end and [denoise_wav] raises on a channel file of B (as it does when
    the mask worker raises), the exception is reported with [utils.error] for
    that channel file and raised again: it leaves the two temporary
    directories, the loop over the files and [main_denoising].  The result
    does not depend on the files after B: none of them is processed. *)
Theorem batch_stops_at_failing_file (A B : string) (rest : list string)
    (output_dir : string) (wav_dir : option string) (verbose : bool) (kw : kwargs)
    (w wA w1 w2 w2' w3 : world) (stats : gmap string ndarray)
    (global_mean global_var : ndarray) (srcB : string) (channels : Z)
    (done_files : list string) (ch_file : string) (later : list string) (e : exn) :
  let tempindir := tmp_names w1 (tmp_count w1) in
  let tempoutdir := tmp_names w1 (S (tmp_count w1)) in
  files w !! GLOBAL_MEAN_VAR_MATF = Some (FMat stats) →
  stats !! "global_mean" = Some global_mean →
  stats !! "global_var" = Some global_var →
  main_denoising_file output_dir wav_dir global_mean global_var kw A w = (Ok Next, wA) →
  check_input B wA = (Ok (Some (srcB, channels)), w1) →
  run_cmdline (split_cmdline srcB channels tempindir) (next_tmp (next_tmp w1))
    = (Ok true, w2) →
  listdir tempindir (files w2) = done_files ++ ch_file :: later →
  for_each done_files
    (λ ch_file _, denoise_channel tempoutdir global_mean global_var kw ch_file) tt w2
    = (Ok tt, w2') →
  denoise_wav ch_file (dest_ch_file tempoutdir ch_file) global_mean global_var
    (use_gpu kw) (gpu_id kw) (truncate_minutes kw) w2' = (Raise e, w3) →
  main_denoising (A :: B :: rest) output_dir wav_dir verbose kw w =
    (Raise e,
     snd (rmtree tempindir
            (snd (rmtree tempoutdir
                    (add_event (EvError (problem_message ch_file)) w3))))).
Proof.
  intros tempindir tempoutdir Hstats Hmean Hvar HA Hcheck Hsplit Hlist Hdone Hfail.
  unfold main_denoising.
  rewrite run_bind. unfold sio_loadmat, read_file.
  rewrite !run_bind. unfold get_files at 1. rewrite Hstats, !run_ret.
  rewrite run_bind. unfold getitem at 1. rewrite Hmean, run_ret.
  rewrite run_bind. unfold getitem at 1. rewrite Hvar, run_ret.
  rewrite run_bind. simpl for_files. rewrite run_bind, HA.
  rewrite run_bind.
  assert (HB : main_denoising_file output_dir wav_dir global_mean global_var kw B wA =
               (Raise e,
                snd (rmtree tempindir
                       (snd (rmtree tempoutdir
                               (add_event (EvError (problem_message ch_file)) w3)))))).
  { unfold main_denoising_file.
    destruct (if truthy wav_dir
              then os_path_splitext (strip_root B (default "" wav_dir))
              else os_path_splitext (os_path_basename B)) as [filename ext].
    rewrite run_bind, Hcheck.
    unfold with_temporary_directory.
    rewrite run_bind. unfold mkdtemp at 1. unfold try_finally at 1.
    rewrite run_bind. unfold mkdtemp at 1. unfold try_finally at 1.
    fold tempindir. change (tmp_names (next_tmp w1) (tmp_count (next_tmp w1)))
      with tempoutdir.
    unfold split_denoise_merge. rewrite run_bind, Hsplit.
    rewrite run_bind. unfold get_files at 1. rewrite run_bind, Hlist.
    rewrite for_each_app, run_bind, Hdone.
    simpl for_each. rewrite run_bind.
    rewrite (denoise_channel_reraises tempoutdir global_mean global_var kw ch_file
               w2' w3 e Hfail).
    reflexivity. }
  by rewrite HB.
Qed.

(** ** Further properties of the chunk loop *)

Lemma prefix_app (a b : string) : String.prefix a (a +:+ b) = true.
Proof.
  induction a as [| c a IH]; simpl; [by destruct b |].
  destruct (Ascii.ascii_dec c c); [exact IH | done].
Qed.

Lemma string_app_nil_r (a : string) : a +:+ "" = a.
Proof.
  induction a as [| c a IH]; [done |].
  change (String c (a +:+ "") = String c a). by rewrite IH.
Qed.

Lemma string_app_assoc (a b c : string) : a +:+ b +:+ c = (a +:+ b) +:+ c.
Proof.
  induction a as [| x a IH]; [done |].
  change (String x (a +:+ b +:+ c) = String x ((a +:+ b) +:+ c)). by rewrite IH.
Qed.

(** A relative name joined to a directory lies in the directory. *)
Lemma in_dir_join (d name : string) :
  String.prefix "/" name = false → in_dir d (os_path_join d name) = true.
Proof.
  intros Hrel. unfold in_dir, os_path_join. rewrite Hrel. simpl String.prefix.
  destruct (decide (d = "")) as [-> |]; [by destruct name |].
  destruct (ends_with_slash d).
  - rewrite string_app_nil_r. apply prefix_app.
  - rewrite string_app_nil_r, string_app_assoc. apply prefix_app.
Qed.

Lemma files_after_rmtree (d p : string) (w : world) :
  in_dir d p = true → files (snd (rmtree d w)) !! p = None.
Proof.
  intros Hin. simpl. apply map_lookup_filter_None. right.
  intros x _. simpl. by rewrite Hin.
Qed.

Section Cleanup.
Variables (src_wav_file : string) (wav_data : list F) (global_mean global_var : ndarray).
Variables (use_gpu : bool) (gpu_id : Z) (chunk_length total_chunks : Z).

Local Abbreviation body :=
  (denoise_wav_chunk src_wav_file wav_data global_mean global_var use_gpu gpu_id
     chunk_length total_chunks).

(** X1. However the loop body ends (the chunk is skipped, enhanced, or some
    step raises), no file is left below the temporary directory it created:
    the feature file, the script file and the mask file are gone. *)
Theorem chunk_leaves_no_temporary_file (i : Z) (data_se : list (list F)) (w : world)
    (name : string) :
  String.prefix "/" name = false →
  files (snd (body i data_se w)) !! os_path_join (tmp_names w (tmp_count w)) name = None.
Proof.
  intros Hrel. unfold denoise_wav_chunk.
  rewrite run_bind. unfold mkdtemp at 1. unfold try_finally.
  match goal with
  | |- context [let '(r, w1) := ?inner in _] => destruct inner as [r w1]
  end.
  apply (files_after_rmtree (tmp_names w (tmp_count w)) _ w1).
  by apply in_dir_join.
Qed.

End Cleanup.

(** X2. The last chunk holds what the chunks before it leave over:
    [N - (k - 1) * chunk_length] samples, at least one and at most
    [chunk_length]. *)
Theorem last_chunk_length (wav_data : list F) (chunk_length k : Z) :
  let N := Z.of_nat (length wav_data) in
  0 < chunk_length → 1 ≤ N →
  total_chunks_of N chunk_length = Ok k →
  Z.of_nat (length (chunk wav_data chunk_length k)) = N - (k - 1) * chunk_length ∧
  1 ≤ N - (k - 1) * chunk_length ≤ chunk_length.
Proof.
  intros N Hc HN Hk.
  pose proof (total_chunks_of_bounds N chunk_length k Hc Hk) as Hb.
  assert (1 ≤ k) by nia.
  rewrite chunk_take_drop by lia.
  rewrite length_take, length_drop. fold N. nia.
Qed.

Lemma total_chunks_of_neg (N c : Z) :
  0 ≤ N → c < 0 → ∃ k, total_chunks_of N c = Ok k ∧ k ≤ 0.
Proof.
  intros HN Hc. unfold total_chunks_of. rewrite decide_False by lia.
  eexists. split; [reflexivity |].
  destruct c as [| p | p]; try lia.
  unfold Qceiling, Qfloor, Qdiv, Qinv, Qmult, Qopp, inject_Z. simpl.
  change (1 * p)%positive with p.
  pose proof (Z.div_pos (- (N * -1)) (Z.pos p) ltac:(lia) ltac:(lia)). lia.
Qed.

Lemma py_range_empty (a b : Z) : b ≤ a → py_range a b = [].
Proof.
  intros Hba. unfold py_range. by replace (Z.to_nat (b - a)) with 0%nat by lia.
Qed.

(** All chunks of the list are too short: each is appended as it is, and the
    loop prints one progress line per chunk. *)
Lemma loop_of_short_chunks (src_wav_file : string) (wav_data : list F)
    (global_mean global_var : ndarray) (use_gpu : bool) (gpu_id : Z)
    (chunk_length total_chunks : Z) (xs : list Z) :
  (∀ i, i ∈ xs → Z.of_nat (length (chunk wav_data chunk_length i)) < WL2) →
  ∀ data_se w,
    ∃ w',
      for_each xs
        (denoise_wav_chunk src_wav_file wav_data global_mean global_var use_gpu
           gpu_id chunk_length total_chunks) data_se w
        = (Ok (data_se ++ map (chunk wav_data chunk_length) xs), w') ∧
      log w' = log w ++ map (λ i, EvPrint (progress_line src_wav_file i total_chunks)) xs.
Proof.
  induction xs as [| i xs IH]; intros Hshort data_se w.
  { exists w. simpl. by rewrite !app_nil_r. }
  simpl for_each. rewrite run_bind.
  rewrite (short_chunk_run src_wav_file wav_data global_mean global_var use_gpu
             gpu_id chunk_length total_chunks i data_se w)
    by (apply Hshort; left).
  destruct (IH (λ j Hj, Hshort j (list_elem_of_further _ _ _ Hj))
              (data_se ++ [chunk wav_data chunk_length i])
              (snd (rmtree (tmp_names w (tmp_count w))
                      (add_event (EvPrint (progress_line src_wav_file i total_chunks))
                         (next_tmp w))))) as (w' & Hrun & Hlog).
  exists w'. rewrite Hrun. split.
  - simpl. by rewrite <- app_assoc.
  - rewrite Hlog. simpl. by rewrite <- app_assoc.
Qed.

Section MoreFile.
Variables (src_wav_file dest_wav_file : string) (global_mean global_var : ndarray).
Variables (use_gpu : bool) (gpu_id : Z) (truncate_minutes : py_float).

Local Abbreviation run :=
  (denoise_wav src_wav_file dest_wav_file global_mean global_var use_gpu gpu_id
     truncate_minutes).

(** X3. With a negative chunk length (a negative [truncate_minutes]) the chunk
    count is not positive, the loop body never runs, and the run ends in the
    ValueError of [np.concatenate] on the empty list, in an unchanged world,
    however many samples the waveform has. *)
Theorem negative_truncate_minutes_raises (w : world) (f : file) (y wav_data : list F)
    (rate chunk_length : Z) :
  files w !! src_wav_file = Some f →
  librosa_load f = Ok (y, rate) →
  peak_normalization (map (λ s, fmul s (f_of_Z (2 ^ 15))) y) = Ok wav_data →
  chunk_length_of truncate_minutes rate = Ok chunk_length →
  chunk_length < 0 →
  run w = (Raise (Exn "ValueError" "need at least one array to concatenate"), w).
Proof.
  intros Hf Hload Hpeak Hlen Hc.
  rewrite (denoise_wav_after_load src_wav_file dest_wav_file global_mean global_var
             use_gpu gpu_id truncate_minutes w f y wav_data rate chunk_length
             Hf Hload Hpeak Hlen).
  destruct (total_chunks_of_neg (Z.of_nat (length wav_data)) _ ltac:(lia) Hc)
    as (k & Hk & Hk0).
  rewrite run_bind, run_lift, Hk.
  rewrite run_bind, py_range_empty by lia. reflexivity.
Qed.

(** X4. When the chunk length or the waveform is shorter than 256 samples,
    every chunk is too short to be enhanced: the run starts no worker, prints
    one progress line per chunk, and writes the peak-normalized waveform,
    converted to int16, as it is. *)
Theorem short_chunks_leave_the_waveform (w : world) (f : file) (y wav_data : list F)
    (rate chunk_length : Z) :
  let N := Z.of_nat (length wav_data) in
  files w !! src_wav_file = Some f →
  librosa_load f = Ok (y, rate) →
  peak_normalization (map (λ s, fmul s (f_of_Z (2 ^ 15))) y) = Ok wav_data →
  chunk_length_of truncate_minutes rate = Ok chunk_length →
  1 ≤ chunk_length → 1 ≤ N → Z.min chunk_length N < 256 →
  ∃ k w',
    total_chunks_of N chunk_length = Ok k ∧
    run w = (Ok tt, w') ∧
    files w' !! dest_wav_file = Some (FWav SR [map astype_int16 wav_data]) ∧
    log w' = log w ++ map (λ i, EvPrint (progress_line src_wav_file i k))
                        (py_range 1 (k + 1)).
Proof.
  intros N Hf Hload Hpeak Hlen Hc HN Hmin.
  set (c := chunk_length) in *.
  pose proof (total_chunks_of_pos N c ltac:(lia)) as Hk.
  set (k := - ((- N) `div` c)) in *.
  pose proof (total_chunks_of_bounds N c k ltac:(lia) Hk) as Hbounds.
  destruct (loop_of_short_chunks src_wav_file wav_data global_mean global_var
              use_gpu gpu_id c k (py_range 1 (k + 1))) with (data_se := @nil (list F))
              (w := w) as (w1 & Hloop & Hlog).
  { intros i Hi. apply elem_of_py_range in Hi.
    rewrite chunk_take_drop by lia. rewrite length_take, length_drop.
    unfold WL2, WL. fold N. change (512 `div` 2) with 256. nia. }
  exists k, (snd (wav_io_write dest_wav_file SR (map astype_int16 wav_data) w1)).
  split; [done |].
  assert (Hcat : concat (map (map astype_int16)
                          (map (chunk wav_data c) (py_range 1 (k + 1))))
                 = map astype_int16 wav_data).
  { rewrite <- (concat_chunks wav_data c k) at 2 by lia.
    generalize (map (chunk wav_data c) (py_range 1 (k + 1))). clear.
    induction l as [| x l IH]; simpl; [done |]. by rewrite map_app, IH. }
  split; [| split].
  - rewrite (denoise_wav_after_load src_wav_file dest_wav_file global_mean global_var
               use_gpu gpu_id truncate_minutes w f y wav_data rate c Hf Hload Hpeak
               Hlen).
    fold N. rewrite run_bind, run_lift, Hk.
    rewrite run_bind, Hloop. simpl app.
    rewrite run_bind, run_lift. unfold np_concatenate.
    destruct (map (map astype_int16) (map (chunk wav_data c) (py_range 1 (k + 1))))
      as [| x l] eqn:Hmap.
    + apply (f_equal length) in Hmap. unfold py_range in Hmap.
      rewrite !length_map, length_seq in Hmap. simpl in Hmap. nia.
    + by rewrite Hcat.
  - simpl files. apply lookup_insert_eq.
  - exact Hlog.
Qed.

(** X5. Whenever the run returns, the destination holds a file of one channel
    at SR = 16000 Hz; the rate read from the source file enters the chunk
    length only. *)
Theorem denoise_wav_writes_mono_at_SR (w w' : world) :
  run w = (Ok tt, w') →
  ∃ data, files w' !! dest_wav_file = Some (FWav SR [data]).
Proof.
  unfold denoise_wav, read_file. rewrite !run_bind. unfold get_files at 1.
  destruct (files w !! src_wav_file) as [f |]; [| done].
  rewrite run_ret, run_bind, run_lift.
  destruct (librosa_load f) as [[y rate] | e]; [| done].
  rewrite run_bind, run_lift.
  destruct (peak_normalization _) as [wav_data | e]; [| done].
  rewrite run_bind, run_lift.
  destruct (chunk_length_of _ _) as [c | e]; [| done].
  rewrite run_bind, run_lift.
  destruct (total_chunks_of _ _) as [k | e]; [| done].
  rewrite run_bind.
  destruct (for_each _ _ _ _) as [[data_se | e] w1]; [| done].
  rewrite run_bind, run_lift.
  destruct (np_concatenate _) as [data | e]; [| done].
  intros [= <-]. exists data. simpl files. apply lookup_insert_eq.
Qed.

End MoreFile.

(** X6. An exception in the worker of chunk [i], after the chunks before it
    went through, when its message is read back from the queue and its class
    makes an instance of the one message string, comes out of [denoise_wav]
    as an exception of the same type whose message carries the child's
    traceback; the worker is joined, the temporary directory of the chunk is
    removed, and the run ends there, before the destination is written. *)
Theorem worker_exception_surfaces (src_wav_file dest_wav_file : string)
    (global_mean global_var : ndarray) (use_gpu : bool) (gpu_id : Z)
    (truncate_minutes : py_float) (w w1 w2 : world) (f : file) (y wav_data : list F)
    (rate chunk_length k i : Z) (before after : list Z) (data_se : list (list F))
    (lps normed : ndarray) (e : exn) (tb : list string) :
  let body := denoise_wav_chunk src_wav_file wav_data global_mean global_var
                use_gpu gpu_id chunk_length k in
  let temp := chunk wav_data chunk_length i in
  let tmp_dir := tmp_names w1 (tmp_count w1) in
  let message := ex_value e +:+ " (in subprocess)" +:+ nl +:+ str_join tb in
  files w !! src_wav_file = Some f →
  librosa_load f = Ok (y, rate) →
  peak_normalization (map (λ s, fmul s (f_of_Z (2 ^ 15))) y) = Ok wav_data →
  chunk_length_of truncate_minutes rate = Ok chunk_length →
  total_chunks_of (Z.of_nat (length wav_data)) chunk_length = Ok k →
  py_range 1 (k + 1) = before ++ i :: after →
  for_each before body [] w = (Ok data_se, w1) →
  ¬ Z.of_nat (length temp) < WL2 →
  wav2logspec temp (np_hamming WL) = Ok lps →
  normed_noisy lps global_mean global_var = Ok normed →
  decode_model_orig (os_path_join tmp_dir "noisy_normed_lps.scp") tmp_dir NFREQS
      use_gpu gpu_id
      (worker_start w1 (progress_line src_wav_file i k) normed
         (Z.of_nat (nrows lps) - 1))
    = (Raised e tb, w2) →
  q_get_error unit (None, Some (ex_type e, ex_value e, str_join tb)) = None →
  new_exception (ex_type e) message = Ok (Exn (ex_type e) message) →
  denoise_wav src_wav_file dest_wav_file global_mean global_var use_gpu gpu_id
    truncate_minutes w =
    (Raise (Exn (ex_type e) message),
     snd (rmtree tmp_dir (add_event (EvJoin "decode_model") w2))).
Proof.
  intros body temp tmp_dir message Hf Hload Hpeak Hlen Hk Hrange Hbefore Hlong Hlps
    Hnormed Hworker Hget Hnew.
  apply (chunk_failure_aborts_file src_wav_file dest_wav_file global_mean global_var
           use_gpu gpu_id truncate_minutes w w1 _ f y wav_data rate chunk_length k i
           before after data_se _ Hf Hload Hpeak Hlen Hk Hrange Hbefore).
  rewrite (worker_exception_leaves_chunk src_wav_file wav_data global_mean global_var
             use_gpu gpu_id chunk_length k i data_se w1 w2 lps normed e tb Hlong Hlps
             Hnormed Hworker Hget).
  unfold reraised, subprocess_message. fold message. by rewrite Hnew.
Qed.

(** ** Further properties of the loop over the files *)

Section Batch.
Variables (output_dir : string) (wav_dir : option string) (verbose : bool) (kw : kwargs).
Variables (stats : gmap string ndarray) (global_mean global_var : ndarray).

(** Once the statistics are loaded, the run is the loop over the files. *)
Lemma main_denoising_loaded (wav_files : list string) (w : world) :
  files w !! GLOBAL_MEAN_VAR_MATF = Some (FMat stats) →
  stats !! "global_mean" = Some global_mean →
  stats !! "global_var" = Some global_var →
  main_denoising wav_files output_dir wav_dir verbose kw w =
    (for_files wav_files
       (main_denoising_file output_dir wav_dir global_mean global_var kw);;
     mret tt) w.
Proof.
  intros Hstats Hmean Hvar. unfold main_denoising.
  rewrite run_bind. unfold sio_loadmat, read_file.
  rewrite !run_bind. unfold get_files at 1. rewrite Hstats, !run_ret.
  rewrite run_bind. unfold getitem at 1. rewrite Hmean, run_ret.
  rewrite run_bind. unfold getitem at 1. rewrite Hvar, run_ret.
  reflexivity.
Qed.

(** The checks of an input that exists and is a WAV file: warnings about the
    rate and the depth, then the test of the channel count. *)
Lemma check_input_of_wav (src_wav_file : string) (w : world) :
  os_path_exists src_wav_file (files w) = true →
  is_wav src_wav_file (files w) = true →
  check_input src_wav_file w =
    (if decide (get_num_channels src_wav_file (files w) < 1)
     then Raise (Exn "Exception"
                   ("File " +:+ dq +:+ src_wav_file +:+ dq
                      +:+ " does not have a valid channel layout."))
     else Ok (Some (src_wav_file, get_num_channels src_wav_file (files w))),
     warned src_wav_file (get_sr src_wav_file (files w))
       (get_bitdepth src_wav_file (files w)) w).
Proof.
  intros Hexists Hwav. unfold check_input.
  rewrite run_bind. unfold get_files at 1. rewrite Hexists. change (negb true) with false. cbv iota.
  rewrite Hwav. rewrite run_bind, run_ret. rewrite run_bind. unfold get_files at 1.
  unfold warned, sr_warning, bitdepth_warning.
  rewrite run_bind.
  destruct (decide (get_sr src_wav_file (files w) ≠ SR));
    [rewrite run_emit | rewrite run_ret];
    rewrite run_bind;
    (destruct (decide (get_bitdepth src_wav_file (files w) ≠ BITDEPTH));
       [rewrite run_emit | rewrite run_ret]);
    destruct (decide (get_num_channels src_wav_file (files w) < 1)); reflexivity.
Qed.

(** X7. An existing WAV file with at least one channel passes the checks
    whatever its sample rate and bit depth are: a rate other than SR and a
    depth other than BITDEPTH each add a warning, and nothing else changes. *)
Theorem other_rate_or_depth_only_warns (src_wav_file : string) (w : world) :
  os_path_exists src_wav_file (files w) = true →
  is_wav src_wav_file (files w) = true →
  1 ≤ get_num_channels src_wav_file (files w) →
  check_input src_wav_file w =
    (Ok (Some (src_wav_file, get_num_channels src_wav_file (files w))),
     warned src_wav_file (get_sr src_wav_file (files w))
       (get_bitdepth src_wav_file (files w)) w).
Proof.
  intros Hexists Hwav Hch. rewrite check_input_of_wav by done.
  by rewrite decide_False by lia.
Qed.

(** X8. A path that does not exist ends the batch with
    [Exception('File "..." does not exist.')]: nothing is printed, created or
    run for it, and the files after it are not looked at. *)
Theorem missing_input_ends_batch (src_wav_file : string) (rest : list string)
    (w : world) :
  files w !! GLOBAL_MEAN_VAR_MATF = Some (FMat stats) →
  stats !! "global_mean" = Some global_mean →
  stats !! "global_var" = Some global_var →
  os_path_exists src_wav_file (files w) = false →
  main_denoising (src_wav_file :: rest) output_dir wav_dir verbose kw w =
    (Raise (Exn "Exception"
              ("File " +:+ dq +:+ src_wav_file +:+ dq +:+ " does not exist.")), w).
Proof.
  intros Hstats Hmean Hvar Hmissing.
  rewrite main_denoising_loaded by done.
  rewrite run_bind. simpl for_files. rewrite run_bind.
  unfold main_denoising_file.
  destruct (if truthy wav_dir
            then os_path_splitext (strip_root src_wav_file (default "" wav_dir))
            else os_path_splitext (os_path_basename src_wav_file)) as [filename ext].
  rewrite run_bind. unfold check_input.
  rewrite run_bind. unfold get_files at 1. rewrite Hmissing. reflexivity.
Qed.

(** X9. A WAV file that reports fewer than one channel ends the batch with
    [Exception('File "..." does not have a valid channel layout.')], before
    any temporary directory is made and before ffmpeg is run: the world is as
    it was but for the warnings about the rate and the depth of the file. *)
Theorem invalid_channel_layout_ends_batch (src_wav_file : string)
    (rest : list string) (w : world) :
  files w !! GLOBAL_MEAN_VAR_MATF = Some (FMat stats) →
  stats !! "global_mean" = Some global_mean →
  stats !! "global_var" = Some global_var →
  os_path_exists src_wav_file (files w) = true →
  is_wav src_wav_file (files w) = true →
  get_num_channels src_wav_file (files w) < 1 →
  main_denoising (src_wav_file :: rest) output_dir wav_dir verbose kw w =
    (Raise (Exn "Exception"
              ("File " +:+ dq +:+ src_wav_file +:+ dq
                 +:+ " does not have a valid channel layout.")),
     warned src_wav_file (get_sr src_wav_file (files w))
       (get_bitdepth src_wav_file (files w)) w).
Proof.
  intros Hstats Hmean Hvar Hexists Hwav Hch.
  rewrite main_denoising_loaded by done.
  rewrite run_bind. simpl for_files. rewrite run_bind.
  unfold main_denoising_file.
  destruct (if truthy wav_dir
            then os_path_splitext (strip_root src_wav_file (default "" wav_dir))
            else os_path_splitext (os_path_basename src_wav_file)) as [filename ext].
  rewrite run_bind, check_input_of_wav by done.
  rewrite decide_True by done. reflexivity.
Qed.

(** X10. When the ffmpeg run that splits a file into channels returns a code
    other than 0, the loop executes [return]: [main_denoising] prints the
    "run failed" line, removes the two temporary directories and returns
    normally, without an exception and without processing the files after
    it. *)
Theorem failed_split_ends_batch_silently (src_wav_file : string) (rest : list string)
    (w w1 w2 : world) (src' : string) (channels rc : Z) :
  let tempindir := tmp_names w1 (tmp_count w1) in
  let tempoutdir := tmp_names w1 (S (tmp_count w1)) in
  let cmdline := split_cmdline src' channels tempindir in
  files w !! GLOBAL_MEAN_VAR_MATF = Some (FMat stats) →
  stats !! "global_mean" = Some global_mean →
  stats !! "global_var" = Some global_var →
  check_input src_wav_file w = (Ok (Some (src', channels)), w1) →
  subprocess_run (py_split cmdline)
    (add_event (EvPrint ("run: " +:+ cmdline)) (next_tmp (next_tmp w1))) = (Ok rc, w2) →
  rc ≠ 0 →
  main_denoising (src_wav_file :: rest) output_dir wav_dir verbose kw w =
    (Ok tt,
     snd (rmtree tempindir
            (snd (rmtree tempoutdir
                    (add_event (EvPrint ("run failed: " +:+ cmdline)) w2))))).
Proof.
  intros tempindir tempoutdir cmdline Hstats Hmean Hvar Hcheck Hrun Hrc.
  rewrite main_denoising_loaded by done.
  rewrite run_bind. simpl for_files. rewrite run_bind.
  unfold main_denoising_file.
  destruct (if truthy wav_dir
            then os_path_splitext (strip_root src_wav_file (default "" wav_dir))
            else os_path_splitext (os_path_basename src_wav_file)) as [filename ext].
  rewrite run_bind, Hcheck.
  unfold with_temporary_directory.
  rewrite run_bind. unfold mkdtemp at 1. unfold try_finally at 1.
  rewrite run_bind. unfold mkdtemp at 1. unfold try_finally at 1.
  fold tempindir. change (tmp_names (next_tmp w1) (tmp_count (next_tmp w1)))
    with tempoutdir.
  unfold split_denoise_merge. rewrite run_bind. unfold run_cmdline at 1.
  fold cmdline. rewrite run_bind, run_emit, run_bind, Hrun.
  rewrite decide_True by done. rewrite run_bind, run_emit.
  reflexivity.
Qed.

(** X11. When the input is not a WAV file and the ffmpeg run that converts it
    returns a code other than 0, [main_denoising] likewise prints the
    "run failed" line and returns normally; the files after it are not
    processed, and the temporary file made for the conversion is not
    removed by the code. *)
Theorem failed_conversion_ends_batch_silently (src_wav_file : string)
    (rest : list string) (w w1 : world) (rc : Z) :
  let fp_name := tmp_names w (tmp_count w) +:+ ".wav" in
  let cmdline := convert_cmdline src_wav_file fp_name in
  files w !! GLOBAL_MEAN_VAR_MATF = Some (FMat stats) →
  stats !! "global_mean" = Some global_mean →
  stats !! "global_var" = Some global_var →
  os_path_exists src_wav_file (files w) = true →
  is_wav src_wav_file (files w) = false →
  subprocess_run (py_split cmdline)
    (add_event (EvPrint ("run: " +:+ cmdline))
       (set_files (insert fp_name (FOther "")) (next_tmp w))) = (Ok rc, w1) →
  rc ≠ 0 →
  main_denoising (src_wav_file :: rest) output_dir wav_dir verbose kw w =
    (Ok tt, add_event (EvPrint ("run failed: " +:+ cmdline)) w1).
Proof.
  intros fp_name cmdline Hstats Hmean Hvar Hexists Hwav Hrun Hrc.
  rewrite main_denoising_loaded by done.
  rewrite run_bind. simpl for_files. rewrite run_bind.
  unfold main_denoising_file.
  destruct (if truthy wav_dir
            then os_path_splitext (strip_root src_wav_file (default "" wav_dir))
            else os_path_splitext (os_path_basename src_wav_file)) as [filename ext].
  rewrite run_bind. unfold check_input.
  rewrite run_bind. unfold get_files at 1. rewrite Hexists.
  change (negb true) with false. cbv iota. rewrite Hwav.
  rewrite run_bind. unfold convert_to_wav, try_except, convert_attempt.
  rewrite run_bind. unfold named_temporary_file at 1. fold fp_name.
  rewrite run_bind. unfold run_cmdline.
  fold (convert_cmdline src_wav_file fp_name). fold cmdline.
  rewrite run_bind, run_emit, run_bind, Hrun.
  rewrite decide_True by done. rewrite run_bind, run_emit.
  reflexivity.
Qed.

(** X12. When the statistics file lacks one of the two arrays, the run ends
    with KeyError for the missing name before the list of input files is
    looked at: the world is unchanged, whatever the list is. *)
Theorem missing_statistics_key_raises (wav_files : list string) (w : world)
    (vars : gmap string ndarray) :
  files w !! GLOBAL_MEAN_VAR_MATF = Some (FMat vars) →
  vars !! "global_mean" = None ∨ vars !! "global_var" = None →
  ∃ key,
    vars !! key = None ∧
    main_denoising wav_files output_dir wav_dir verbose kw w =
      (Raise (Exn "KeyError" key), w).
Proof.
  intros Hfile Hkey. unfold main_denoising, sio_loadmat, read_file.
  destruct (vars !! "global_mean") as [mean |] eqn:Hmean.
  - destruct Hkey as [? | Hvar]; [done |].
    exists "global_var". split; [done |].
    rewrite !run_bind. unfold get_files at 1. rewrite Hfile, !run_ret.
    rewrite run_bind. unfold getitem at 1. rewrite Hmean, run_ret.
    rewrite run_bind. unfold getitem at 1. by rewrite Hvar.
  - exists "global_mean". split; [done |].
    rewrite !run_bind. unfold get_files at 1. rewrite Hfile, !run_ret.
    rewrite run_bind. unfold getitem at 1. by rewrite Hmean.
Qed.

End Batch.

(** X13. Whatever goes wrong in the conversion of an input that is not a WAV
    file (the temporary file, the ffmpeg run), the bare [except] raises
    [Exception('File "..." could not be converted to valid WAV. Type: ...')]
    in its place: what leaves the conversion has the type Exception and this
    message, and the exception of the body is its context only. *)
Theorem conversion_error_is_replaced (src_wav_file : string) (w w' : world) (e : exn) :
  convert_to_wav src_wav_file w = (Raise e, w') →
  ∃ original,
    convert_attempt src_wav_file w = (Raise original, w') ∧
    e = ExnC "Exception"
          ("File " +:+ dq +:+ src_wav_file +:+ dq
             +:+ " could not be converted to valid WAV. Type: "
             +:+ get_file_type src_wav_file (files w'))
          (Some original).
Proof.
  unfold convert_to_wav, try_except.
  destruct (convert_attempt src_wav_file w) as [[a | e0] w1]; [done |].
  rewrite run_bind. unfold get_files at 1. intros [= <- <-]. by exists e0.
Qed.

(** X14. However the processing of a file ends after its checks (it is
    merged, a run of ffmpeg fails, or a channel raises), nothing is left
    below the two temporary directories made for it: the channel files and
    their enhanced versions are gone. *)
Theorem file_leaves_no_temporary_file (output_dir : string) (wav_dir : option string)
    (global_mean global_var : ndarray) (kw : kwargs) (src_wav_file : string)
    (w w1 : world) (src' : string) (channels : Z) (name : string) :
  let tempindir := tmp_names w1 (tmp_count w1) in
  let tempoutdir := tmp_names w1 (S (tmp_count w1)) in
  let w' := snd (main_denoising_file output_dir wav_dir global_mean global_var kw
                   src_wav_file w) in
  check_input src_wav_file w = (Ok (Some (src', channels)), w1) →
  String.prefix "/" name = false →
  files w' !! os_path_join tempindir name = None ∧
  files w' !! os_path_join tempoutdir name = None.
Proof.
  intros tempindir tempoutdir w' Hcheck Hrel.
  assert (Hrun : ∃ r w2,
             main_denoising_file output_dir wav_dir global_mean global_var kw
               src_wav_file w =
             (r, snd (rmtree tempindir (snd (rmtree tempoutdir w2))))).
  { unfold main_denoising_file.
    destruct (if truthy wav_dir
              then os_path_splitext (strip_root src_wav_file (default "" wav_dir))
              else os_path_splitext (os_path_basename src_wav_file)) as [filename ext].
    rewrite run_bind, Hcheck.
    unfold with_temporary_directory.
    rewrite run_bind. unfold mkdtemp at 1. unfold try_finally at 1.
    rewrite run_bind. unfold mkdtemp at 1. unfold try_finally at 1.
    fold tempindir. change (tmp_names (next_tmp w1) (tmp_count (next_tmp w1)))
      with tempoutdir.
    destruct (split_denoise_merge output_dir filename ext src' channels global_mean
                global_var kw tempindir tempoutdir (next_tmp (next_tmp w1)))
      as [r w2].
    by exists r, w2. }
  destruct Hrun as (r & w2 & Hrun). unfold w'. rewrite Hrun.
  split.
  - apply (files_after_rmtree tempindir). by apply in_dir_join.
  - simpl. apply map_lookup_filter_None. left.
    apply (files_after_rmtree tempoutdir _ w2). by apply in_dir_join.
Qed.

End Properties.

(** * Examples on the concrete instance *)

(** The chunk length on floats: 0.7 minutes at 16 kHz are 672000 samples; at
    44.1 kHz the product for 3.7792894935752074e-07 is rounded to 1.0; an
    infinite product makes [int] raise. *)
Lemma chunk_length_examples :
  chunk_length_of demo_0_7 16000 = Ok 672000 ∧
  chunk_length_of demo_threshold 44100 = Ok 1 ∧
  chunk_length_of ten_minutes 16000 = Ok 9600000 ∧
  chunk_length_of demo_huge 16000 =
    Raise (Exn "OverflowError" "cannot convert float infinity to integer").
Proof. vm_compute. repeat split. Qed.

(** C5 on a function that runs out of memory: RuntimeError in the caller,
    after the join. *)
Lemma processify_reraises_and_joins_witness :
  processify (env := demo_env Demo.model) "decode_model" out_of_memory demo_world =
    (Raise demo_failure, add_event (EvJoin "decode_model") demo_started).
Proof.
  exact (processify_reraises_and_joins (env := demo_env Demo.model) "decode_model"
           out_of_memory demo_world demo_started
           (Raised (Exn "RuntimeError" "CUDA failure 2: out of memory") demo_traceback)
           eq_refl eq_refl eq_refl).
Defined.

(** C5, every exception and every case: for UnicodeDecodeError the caller
    gets TypeError, as the class cannot be called with one string; for an
    exception that cannot be read back from the queue the caller gets the
    exception of [q.get()], and the process is started but not joined. *)
Lemma processify_loses_type_or_join :
  let run1 := processify (env := demo_env Demo.model) "decode_model" undecodable
                demo_world in
  let run2 := processify (env := demo_env Demo.model) "decode_model" bad_layer
                demo_world in
  fst run1 = Raise (Exn "TypeError" "function takes exactly 5 arguments (1 given)") ∧
  log (snd run1) = [EvStart "decode_model"; EvJoin "decode_model"] ∧
  fst run2 = Raise (Exn "TypeError"
                      "ModelError.__init__() missing 1 required positional argument: 'reason'") ∧
  log (snd run2) = [EvStart "decode_model"].
Proof. vm_compute. repeat split. Qed.

(** C7 on a 2 x 3 frame matrix: entry (1, 2) is (6 - 30) / 9. *)
Lemma normed_noisy_elementwise_witness :
  ∃ frames',
    normed_noisy demo_frames demo_mean3 demo_var3 = Ok frames' ∧
    entry frames' 1 2 = Some (TDiv (TSub (TConst 6) (TConst 30)) (TConst 9)).
Proof.
  destruct (normed_noisy_elementwise demo_frames demo_mean3 demo_var3)
    as (frames' & Hrun & _ & Hentry).
  - repeat constructor.
  - repeat constructor.
  - repeat constructor.
  - reflexivity.
  - reflexivity.
  - exists frames'. split; [exact Hrun |].
    apply (Hentry 1%nat 2%nat (TConst 6) (TConst 30) (TConst 9)); reflexivity.
Defined.

(** C2 on the second chunk of a 300-sample signal cut at 256: its 44 samples
    come back as they are. *)
Lemma short_chunk_passes_through_witness :
  fst (denoise_wav_chunk (env := demo_env Demo.model) "in/D.wav" (demo_signal 300 7)
         demo_mean demo_var true 0 256 2 2 [] demo_world)
  = Ok [demo_signal 44 7].
Proof.
  rewrite (short_chunk_passes_through (env := demo_env Demo.model) "in/D.wav"
             (demo_signal 300 7) demo_mean demo_var true 0 256 2 2 [] demo_world)
    by (vm_compute; reflexivity).
  vm_compute. reflexivity.
Defined.

(** C2, the bound of 257: a chunk of 256 samples has fewer than 257 samples,
    and yet the worker is started for it and what is appended is not the
    chunk. *)
Lemma chunk_of_256_samples_is_processed :
  let run := denoise_wav_chunk (env := demo_env Demo.model) "in/A.wav"
               (demo_signal 256 7) demo_mean demo_var true 0 256 1 1 [] demo_world in
  Z.of_nat (length (chunk (demo_signal 256 7) 256 1)) < 257 ∧
  fst run ≠ Ok [chunk (demo_signal 256 7) 256 1] ∧
  log (snd run) = [EvPrint "Processing file: in/A.wav, segment: 1/1.";
                   EvStart "decode_model"; EvJoin "decode_model"].
Proof.
  vm_compute. split; [reflexivity |]. split; [discriminate | reflexivity].
Qed.

(** C3 on a chunk of two frames and a mask of one row: the shapes (2, 257) and
    (1, 257) broadcast to (2, 257), and the sum goes to the synthesis. *)
Lemma mask_shape_is_only_broadcast_witness :
  shape demo_lps2 = (2%nat, 257%nat) ∧ shape demo_irm_row = (1%nat, 257%nat) ∧
  ∃ masked,
    masked_lps demo_lps2 demo_irm_row = Ok masked ∧
    shape masked = (2%nat, 257%nat) ∧
    denoise_wav_chunk (env := demo_env Demo.row_model) "in/L.wav" (demo_signal 512 7)
      demo_mean demo_var true 0 512 1 1 [] demo_world =
      (wave_recon ← logspec2wav (Externals := demo_env Demo.row_model) masked
                      (demo_signal 512 7) (Demo.np_hamming WL) WL WL2;
       mret ([] ++ [wave_recon]),
       snd (rmtree "/tmp/tmp0" (add_event (EvJoin "decode_model") demo_after_row_worker))).
Proof.
  split; [by vm_compute |]. split; [by vm_compute |].
  exact (mask_shape_is_only_broadcast (env := demo_env Demo.row_model) "in/L.wav"
           (demo_signal 512 7) demo_mean demo_var true 0 512 1 1 [] demo_world
           demo_after_row_worker demo_lps2 demo_normed2 demo_irm_row
           {[ "IRM" := demo_irm_row ]}
           ltac:(vm_compute; discriminate)
           ltac:(vm_compute; reflexivity)
           ltac:(vm_compute; reflexivity)
           ltac:(vm_compute; reflexivity)
           ltac:(reflexivity)
           ltac:(vm_compute; reflexivity)
           ltac:(vm_compute; reflexivity)).
Defined.

(** C3, the validation: the worker leaves a mask of shape (1, 257) for a frame
    matrix of shape (2, 257), and the loop body returns a reconstructed chunk. *)
Lemma single_row_mask_is_accepted :
  let run := denoise_wav_chunk (env := demo_env Demo.row_model) "in/L.wav"
               (demo_signal 512 7) demo_mean demo_var true 0 512 1 1 [] demo_world in
  wav2logspec (Externals := demo_env Demo.row_model) (demo_signal 512 7)
    (Demo.np_hamming WL) = Ok demo_lps2 ∧
  files demo_after_row_worker !! "/tmp/tmp0/irm.mat"
    = Some (FMat {[ "IRM" := demo_irm_row ]}) ∧
  shape demo_lps2 = (2%nat, 257%nat) ∧
  shape demo_irm_row = (1%nat, 257%nat) ∧
  ∃ out, fst run = Ok [out].
Proof.
  vm_compute. repeat split. eexists. reflexivity.
Qed.

(** The kernels of the concrete instance keep the phase. *)
Lemma phase_of_is_phase (j : nat) (s : expr) :
  ∃ p k, Demo.phase_of j s = TFun "phase" p k.
Proof.
  destruct s as [z | a b | a b | m r | a b | a | name a k]; simpl; eauto.
  destruct r as [z | a b | a b | a b | a b | a | name p k]; simpl; eauto.
  destruct (decide (name = "phase")); eauto.
Qed.

Lemma phase_of_product (j : nat) (m s : expr) :
  Demo.phase_of j (TMul m (Demo.phase_of j s)) = Demo.phase_of j s.
Proof.
  destruct (phase_of_is_phase j s) as (p & k & ->). simpl.
  by destruct (decide ("phase" = "phase")).
Qed.

Lemma demo_kernels_keep_phase : phase_preserving demo_kernels.
Proof.
  intros magnitude wave window n_per_seg noverlap out.
  cbn [istft stft_phase demo_kernels]. unfold Demo.istft.
  destruct (decide (nrows magnitude = nrows _)) as [_ |]; [| done].
  intros [= <-]. unfold Demo.stft_phase at 1 3.
  rewrite length_map, length_seq. f_equal.
  apply map_ext_in. intros i Hi. apply in_seq in Hi.
  apply map_ext_in. intros j Hj. apply in_seq in Hj.
  pose proof (Nat.div_mod_eq (length wave) 256) as Hlen.
  pose proof (Nat.mod_upper_bound (length wave) 256 ltac:(lia)) as Hmod.
  assert (Hk : (i * 256 + j < length wave)%nat) by nia.
  rewrite (nth_lookup (map _ (seq 0 (length wave)))).
  rewrite list_lookup_fmap, lookup_seq_lt by lia.
  change (default ?d (?f <$> Some ?x)) with (f x). cbv beta.
  rewrite !Nat.add_0_l.
  change (fst (Nat.divmod ?a 255 0 255)) with (a `div` 256)%nat.
  change (255 - snd (Nat.divmod ?a 255 0 255))%nat with (a `mod` 256)%nat.
  replace ((i * 256 + j) `div` 256)%nat with i
    by (apply Nat.div_unique with j; lia).
  replace ((i * 256 + j) `mod` 256)%nat with j
    by (apply Nat.mod_unique with i; lia).
  assert (Hentry : entry (Demo.stft_phase wave window n_per_seg noverlap) i j =
                   Some (Demo.phase_of j (nth (i * 256 + j)%nat wave (TConst 0)))).
  { unfold entry, Demo.stft_phase. cbn [rows].
    rewrite list_lookup_fmap, lookup_seq_lt by lia.
    change ((?f <$> Some ?x) ≫= ?g) with (g (f x)). cbv beta.
    rewrite list_lookup_fmap, lookup_seq_lt by lia. reflexivity. }
  rewrite Hentry. change (default ?d (Some ?x)) with x. apply phase_of_product.
Qed.


(** The decoder of the concrete instance is the modelled one. *)
Lemma demo_decoder (estimate : @ndarray expr → bool → Z → outcome (@ndarray expr))
    scp_fn out_dir n_freqs use_gpu gpu_id w :
  decode_model_orig (Externals := demo_env estimate) scp_fn out_dir n_freqs use_gpu gpu_id w =
  decode_model_spec estimate scp_fn out_dir n_freqs use_gpu gpu_id w.
Proof. reflexivity. Qed.



(** C8 on the file A in two worlds that differ in the temporary names, in a
    file and in what has been printed. *)
Lemma denoise_wav_deterministic_witness :
  written "out/A.wav"
    (denoise_wav (env := demo_env Demo.model) "in/A.wav" "out/A.wav" demo_mean
       demo_var true 0 ten_minutes demo_world) =
  written "out/A.wav"
    (denoise_wav (env := demo_env Demo.model) "in/A.wav" "out/A.wav" demo_mean
       demo_var true 0 ten_minutes demo_world2).
Proof.
  apply (denoise_wav_deterministic (env := demo_env Demo.model) Demo.model
           (demo_decoder Demo.model)).
  vm_compute. reflexivity.
Defined.

(** C9 with [truncate_minutes] = 0.000001 at 16 kHz: the product is 0.96. *)
Lemma tiny_truncate_minutes_divides_by_zero_witness :
  chunk_length_of demo_0_96_samples 16000 = Ok 0 ∧
  denoise_wav (env := demo_env Demo.model) "in/A.wav" "out/A.wav" demo_mean demo_var
    true 0 demo_0_96_samples demo_world =
    (Raise (Exn "ZeroDivisionError" "division by zero"), demo_world).
Proof.
  exact (tiny_truncate_minutes_divides_by_zero (env := demo_env Demo.model) "in/A.wav"
           "out/A.wav" demo_mean demo_var true 0 demo_0_96_samples demo_world
           (demo_wav 256 100)
           (map (λ z, TDiv (TConst z) (TConst (2 ^ 15))) (replicate 256 100))
           (map (λ s, TMul s (TConst (2 ^ 15)))
              (map (λ z, TDiv (TConst z) (TConst (2 ^ 15))) (replicate 256 100)))
           16000 demo_product_0_96 eq_refl eq_refl eq_refl
           ltac:(vm_compute; reflexivity) ltac:(lia) ltac:(vm_compute; reflexivity)).
Defined.

(** C10 on the file E, which has no samples. *)
Lemma empty_waveform_raises_witness :
  total_chunks_of 0 9600000 = Ok 0 ∧
  denoise_wav (env := demo_env Demo.model) "in/E.wav" "out/E.wav" demo_mean demo_var
    true 0 ten_minutes demo_world =
    (Raise (Exn "ValueError" "need at least one array to concatenate"), demo_world).
Proof.
  apply (empty_waveform_raises (env := demo_env Demo.model) "in/E.wav" "out/E.wav"
           demo_mean demo_var true 0 ten_minutes demo_world (demo_wav 0 0) [] 16000
           9600000 eq_refl eq_refl eq_refl ltac:(vm_compute; reflexivity)).
  discriminate.
Defined.

(** C1 on the batch A, B, C, where the mask model gives up on B. *)
Lemma batch_stops_at_failing_file_witness :
  main_denoising (env := demo_env Demo.model) ["in/A.wav"; "in/B.wav"; "in/C.wav"]
    "out" None false demo_kwargs demo_world =
    (Raise demo_failure,
     snd (rmtree "/tmp/tmp3"
            (snd (rmtree "/tmp/tmp4"
                    (add_event (EvError (problem_message "/tmp/tmp3/ch0.wav"))
                       demo_B_failed))))).
Proof.
  apply (batch_stops_at_failing_file (env := demo_env Demo.model) "in/A.wav" "in/B.wav"
           ["in/C.wav"] "out" None false demo_kwargs demo_world demo_after_A
           demo_B_checked demo_B_split demo_B_split demo_B_failed demo_stats
           demo_mean demo_var "in/B.wav" 1 [] "/tmp/tmp3/ch0.wav" [] demo_failure);
    vm_compute; reflexivity.
Defined.

(** C1, the batch going on: the run over A, B, C raises, A has its output, B
    and C have none, although C on its own is processed to the end. *)
Lemma batch_of_three_stops_at_B :
  let run := main_denoising (env := demo_env Demo.model)
               ["in/A.wav"; "in/B.wav"; "in/C.wav"] "out" None false demo_kwargs
               demo_world in
  let alone := main_denoising (env := demo_env Demo.model) ["in/C.wav"] "out" None
                 false demo_kwargs demo_world in
  fst run = Raise demo_failure ∧
  is_Some (files (snd run) !! "out/A_enhanced.wav") ∧
  files (snd run) !! "out/B_enhanced.wav" = None ∧
  files (snd run) !! "out/C_enhanced.wav" = None ∧
  fst alone = Ok tt ∧
  is_Some (files (snd alone) !! "out/C_enhanced.wav").
Proof.
  vm_compute. repeat split; eexists; reflexivity.
Qed.

(** * Examples for the further properties *)

(** X1 on a processed chunk: the mask file is gone. *)
Lemma chunk_leaves_no_temporary_file_witness :
  files (snd (denoise_wav_chunk (env := demo_env Demo.model) "in/A.wav"
                (demo_signal 256 7) demo_mean demo_var true 0 256 1 1 [] demo_world))
    !! os_path_join "/tmp/tmp0" "irm.mat" = None.
Proof.
  exact (chunk_leaves_no_temporary_file (env := demo_env Demo.model) "in/A.wav"
           (demo_signal 256 7) demo_mean demo_var true 0 256 1 1 [] demo_world
           "irm.mat" eq_refl).
Defined.

(** X6 on the file B, whose three frames are too many for [Demo.model]. *)
Lemma worker_exception_surfaces_witness :
  fst (denoise_wav (env := demo_env Demo.model) "in/B.wav" "out/B.wav" demo_mean
         demo_var true 0 ten_minutes demo_world) = Raise demo_failure.
Proof.
  rewrite (worker_exception_surfaces (env := demo_env Demo.model) "in/B.wav"
             "out/B.wav" demo_mean demo_var true 0 ten_minutes demo_world demo_world
             (worker_start demo_world (progress_line "in/B.wav" 1 1) demo_normed3 2)
             (demo_wav 768 200)
             (map (λ z, TDiv (TConst z) (TConst (2 ^ 15))) (replicate 768 200))
             demo_B 16000 9600000 1 1 [] [] [] demo_lps3 demo_normed3
             (Exn "RuntimeError" "CUDA failure 2: out of memory")
             ["  File decode_model.py, in decode_model" +:+ nl]
             ltac:(reflexivity) ltac:(reflexivity) ltac:(reflexivity)
             ltac:(vm_compute; reflexivity)
             ltac:(reflexivity) ltac:(reflexivity) ltac:(reflexivity)
             ltac:(vm_compute; discriminate)
             ltac:(vm_compute; reflexivity)
             ltac:(vm_compute; reflexivity)
             ltac:(vm_compute; reflexivity)
             ltac:(reflexivity) ltac:(reflexivity)).
  reflexivity.
Defined.

(** X2 on the 300 samples of D cut at 256: the second chunk has 44. *)
Lemma last_chunk_length_witness :
  Z.of_nat (length (chunk demo_D 256 2)) = 300 - (2 - 1) * 256 ∧
  1 ≤ 300 - (2 - 1) * 256 ≤ 256.
Proof.
  exact (last_chunk_length demo_D 256 2 ltac:(lia) ltac:(vm_compute; discriminate)
           eq_refl).
Defined.

(** X3 with [truncate_minutes] = -1.0. *)
Lemma negative_truncate_minutes_raises_witness :
  denoise_wav (env := demo_env Demo.model) "in/A.wav" "out/A.wav" demo_mean demo_var
    true 0 minus_one demo_world =
    (Raise (Exn "ValueError" "need at least one array to concatenate"), demo_world).
Proof.
  exact (negative_truncate_minutes_raises (env := demo_env Demo.model) "in/A.wav"
           "out/A.wav" demo_mean demo_var true 0 minus_one demo_world (demo_wav 256 100)
           (map (λ z, TDiv (TConst z) (TConst (2 ^ 15))) (replicate 256 100))
           (map (λ s, TMul s (TConst (2 ^ 15)))
              (map (λ z, TDiv (TConst z) (TConst (2 ^ 15))) (replicate 256 100)))
           16000 (-960000) ltac:(reflexivity) ltac:(reflexivity) ltac:(reflexivity)
           ltac:(vm_compute; reflexivity) ltac:(lia)).
Defined.

(** X4 on D with chunks of 100 samples: three progress lines, no worker, and
    the 300 samples written as they were. *)
Lemma short_chunks_leave_the_waveform_witness :
  ∃ w',
    denoise_wav (env := demo_env Demo.model) "in/D.wav" "out/D.wav" demo_mean demo_var
      true 0 demo_100_samples demo_world = (Ok tt, w') ∧
    files w' !! "out/D.wav" = Some (FWav SR [map Demo.astype_int16 demo_D]) ∧
    log w' = [EvPrint "Processing file: in/D.wav, segment: 1/3.";
              EvPrint "Processing file: in/D.wav, segment: 2/3.";
              EvPrint "Processing file: in/D.wav, segment: 3/3."].
Proof.
  destruct (short_chunks_leave_the_waveform (env := demo_env Demo.model) "in/D.wav"
              "out/D.wav" demo_mean demo_var true 0 demo_100_samples demo_world
              (demo_wav 300 400)
              (map (λ z, TDiv (TConst z) (TConst (2 ^ 15))) (replicate 300 400))
              demo_D 16000 100 ltac:(reflexivity) ltac:(reflexivity) ltac:(reflexivity)
              ltac:(vm_compute; reflexivity)
              ltac:(lia) ltac:(vm_compute; discriminate)
              ltac:(vm_compute; reflexivity))
    as (k & w' & Hk & Hrun & Hfile & Hlog).
  injection Hk as <-.
  exists w'. split; [exact Hrun |]. split; [exact Hfile |]. exact Hlog.
Defined.

(** X5 on the 8 kHz file R: the file written is at 16000 Hz. *)
Lemma denoise_wav_writes_mono_at_SR_witness :
  ∃ data,
    files (snd (denoise_wav (env := demo_env Demo.model) "in/R.wav" "out/R.wav"
                  demo_mean demo_var true 0 ten_minutes demo_world3)) !! "out/R.wav"
    = Some (FWav 16000 [data]).
Proof.
  apply (denoise_wav_writes_mono_at_SR (env := demo_env Demo.model) "in/R.wav"
           "out/R.wav" demo_mean demo_var true 0 ten_minutes demo_world3).
  vm_compute. reflexivity.
Defined.

(** X10 on the batch A, C when ffmpeg gives up: the run returns, and C is not
    looked at. *)
Lemma failed_split_ends_batch_silently_witness :
  ∃ w',
    main_denoising (env := demo_env_with failing_ffmpeg) ["in/A.wav"; "in/C.wav"]
      "out" None false demo_kwargs demo_world = (Ok tt, w') ∧
    log w' =
      [EvPrint "run: ffmpeg -i in/A.wav -map_channel 0.0.0 -acodec pcm_s16le -ar 16000 /tmp/tmp0/ch0.wav";
       EvPrint "run failed: ffmpeg -i in/A.wav -map_channel 0.0.0 -acodec pcm_s16le -ar 16000 /tmp/tmp0/ch0.wav"].
Proof.
  eexists. split.
  - apply (failed_split_ends_batch_silently (env := demo_env_with failing_ffmpeg)
             "out" None false demo_kwargs demo_stats demo_mean demo_var "in/A.wav"
             ["in/C.wav"] demo_world demo_world
             (add_event
                (EvPrint ("run: " +:+ split_cmdline "in/A.wav" 1 "/tmp/tmp0"))
                (next_tmp (next_tmp demo_world)))
             "in/A.wav" 1 1);
      [reflexivity | reflexivity | reflexivity | vm_compute; reflexivity
      | vm_compute; reflexivity | discriminate].
  - vm_compute. reflexivity.
Defined.

(** X8 on a path that is not there. *)
Lemma missing_input_ends_batch_witness :
  main_denoising (env := demo_env Demo.model) ["in/none.wav"; "in/A.wav"] "out" None
    false demo_kwargs demo_world =
    (Raise (Exn "Exception" ("File " +:+ dq +:+ "in/none.wav" +:+ dq
                               +:+ " does not exist.")), demo_world).
Proof.
  apply (missing_input_ends_batch (env := demo_env Demo.model) "out" None false
           demo_kwargs demo_stats demo_mean demo_var "in/none.wav" ["in/A.wav"]
           demo_world); reflexivity.
Defined.

(** X9 on the file Z, a WAV file without channels, at 16 kHz and 16 bits:
    nothing is printed. *)
Lemma invalid_channel_layout_ends_batch_witness :
  main_denoising (env := demo_env Demo.model) ["in/Z.wav"; "in/A.wav"] "out" None
    false demo_kwargs demo_world3 =
    (Raise (Exn "Exception" ("File " +:+ dq +:+ "in/Z.wav" +:+ dq
                               +:+ " does not have a valid channel layout.")),
     demo_world3).
Proof.
  apply (invalid_channel_layout_ends_batch (env := demo_env Demo.model) "out" None
           false demo_kwargs demo_stats demo_mean demo_var "in/Z.wav" ["in/A.wav"]
           demo_world3); vm_compute; reflexivity.
Defined.

(** X12 on the statistics file without the variances. *)
Lemma missing_statistics_key_raises_witness :
  ∃ key,
    ({[ "global_mean" := demo_mean ]} : gmap string (@ndarray expr)) !! key = None ∧
    main_denoising (env := demo_env Demo.model) ["in/A.wav"] "out" None false
      demo_kwargs demo_world4 = (Raise (Exn "KeyError" key), demo_world4).
Proof.
  apply (missing_statistics_key_raises (env := demo_env Demo.model) "out" None false
           demo_kwargs ["in/A.wav"] demo_world4 {[ "global_mean" := demo_mean ]}).
  - vm_compute. reflexivity.
  - right. vm_compute. reflexivity.
Defined.

(** X13 when ffmpeg is not installed: Exception, with FileNotFoundError as
    its context. *)
Lemma conversion_error_is_replaced_witness :
  fst (convert_to_wav (env := demo_env_with no_ffmpeg) "in/song.mp3" demo_world3) =
  Raise (ExnC "Exception"
           ("File " +:+ dq +:+ "in/song.mp3" +:+ dq
              +:+ " could not be converted to valid WAV. Type: MPEG audio")
           (Some (Exn "FileNotFoundError"
                    "[Errno 2] No such file or directory: 'ffmpeg'"))).
Proof.
  destruct (convert_to_wav (env := demo_env_with no_ffmpeg) "in/song.mp3" demo_world3)
    as [[a | e] w'] eqn:Hrun; [vm_compute in Hrun; discriminate |].
  destruct (conversion_error_is_replaced (env := demo_env_with no_ffmpeg) "in/song.mp3"
              demo_world3 w' e Hrun) as (original & Hbody & ->).
  vm_compute in Hbody. injection Hbody as <- <-. reflexivity.
Defined.

(** X7 on the 8 kHz file R: one warning, and the file goes on. *)
Lemma other_rate_or_depth_only_warns_witness :
  check_input (env := demo_env Demo.model) "in/R.wav" demo_world3 =
    (Ok (Some ("in/R.wav", 1)),
     add_event (sr_warning "in/R.wav" 8000) demo_world3).
Proof.
  apply (other_rate_or_depth_only_warns (env := demo_env Demo.model) "in/R.wav"
           demo_world3); vm_compute; [reflexivity | reflexivity | discriminate].
Defined.

(** X11 on an MP3 file when ffmpeg gives up: the run returns, and A is not
    looked at. *)
Lemma failed_conversion_ends_batch_silently_witness :
  ∃ w',
    main_denoising (env := demo_env_with failing_ffmpeg) ["in/song.mp3"; "in/A.wav"]
      "out" None false demo_kwargs demo_world3 = (Ok tt, w') ∧
    is_Some (files w' !! "/tmp/tmp0.wav") ∧
    files w' !! "out/A_enhanced.wav" = None.
Proof.
  eexists. split; [| split].
  - apply (failed_conversion_ends_batch_silently (env := demo_env_with failing_ffmpeg)
             "out" None false demo_kwargs demo_stats demo_mean demo_var "in/song.mp3"
             ["in/A.wav"] demo_world3
             (add_event
                (EvPrint ("run: " +:+ convert_cmdline "in/song.mp3" "/tmp/tmp0.wav"))
                (set_files (insert "/tmp/tmp0.wav" (FOther ""))
                   (next_tmp demo_world3))) 1);
      [reflexivity | reflexivity | reflexivity | vm_compute; reflexivity
      | vm_compute; reflexivity | vm_compute; reflexivity | discriminate].
  - vm_compute. eexists. reflexivity.
  - vm_compute. reflexivity.
Defined.

(** X14 on the file A: its channel file is gone, and so is the enhanced one. *)
Lemma file_leaves_no_temporary_file_witness :
  let w' := snd (main_denoising_file (env := demo_env Demo.model) "out" None demo_mean
                   demo_var demo_kwargs "in/A.wav" demo_world) in
  files w' !! os_path_join (demo_tmp 0) "ch0.wav" = None ∧
  files w' !! os_path_join (demo_tmp 1) "ch0_enhanced.wav" = None.
Proof.
  intros w'.
  assert (Hcheck : check_input (env := demo_env Demo.model) "in/A.wav" demo_world =
                   (Ok (Some ("in/A.wav", 1)), demo_world))
    by (vm_compute; reflexivity).
  pose proof (file_leaves_no_temporary_file (env := demo_env Demo.model) "out" None
                demo_mean demo_var demo_kwargs "in/A.wav" demo_world demo_world
                "in/A.wav" 1 "ch0.wav" Hcheck eq_refl) as [Hin _].
  pose proof (file_leaves_no_temporary_file (env := demo_env Demo.model) "out" None
                demo_mean demo_var demo_kwargs "in/A.wav" demo_world demo_world
                "in/A.wav" 1 "ch0_enhanced.wav" Hcheck eq_refl) as [_ Hout].
  split; [exact Hin | exact Hout].
Defined.
